(** * distance-from-home-by-day: [modules/date_collection.py]

    A shallow embedding of the two calendar classes of
    [modules/date_collection.py] and the properties of their date
    back-fill, coordinate lookup and distance computation.

    - A [datetime.date] is represented by its proleptic Gregorian ordinal
      ([date.toordinal()]), an integer between 1 (0001-01-01) and
      3652059 (9999-12-31).
    - A Python [float] is a binary64 number ([PrimFloat.float]); the
      functions of the [math] module and the power operator are
      parameters (class [Math]).
    - The parsed content of [data/coordinates.json] is a tree of
      dictionaries whose leaves are [[latitude, longitude]] lists of
      two floats.
    - Methods run in a state and exception monad over the attributes of
      the instance and the text printed so far. *)

From Stdlib Require Import ZArith String Ascii Floats.PrimFloat.
From stdpp Require Import gmap strings list fin_maps.

Set Warnings "-inexact-float,-register-all".
Local Open Scope Z_scope.

(** ** Exceptions and results *)

Inductive exn : Type :=
  | KeyError
  | IndexError
  | TypeError
  | ValueError
  | OverflowError
  | SystemExit.

Definition exn_eqb (a b : exn) : bool :=
  match a, b with
  | KeyError, KeyError | IndexError, IndexError | TypeError, TypeError
  | ValueError, ValueError | OverflowError, OverflowError
  | SystemExit, SystemExit => true
  | _, _ => false
  end.

Inductive outcome (A : Type) : Type :=
  | Returns (a : A)
  | Raises (e : exn).
Arguments Returns {A} a.
Arguments Raises {A} e.

(** ** Dates: [datetime.date], [datetime.timedelta], [dateutil.rrule] *)

Abbreviation date := Z (only parsing).

Definition MINYEAR : Z := 1.
Definition MAXYEAR : Z := 9999.
Definition _MAXORDINAL : Z := 3652059.

Definition date_in_range (d : date) : bool :=
  (1 <=? d) && (d <=? _MAXORDINAL).

Definition _is_leap (year : Z) : bool :=
  (year mod 4 =? 0) && (negb (year mod 100 =? 0) || (year mod 400 =? 0)).

Definition _days_before_year (year : Z) : Z :=
  let y := year - 1 in
  y * 365 + y / 4 - y / 100 + y / 400.

Definition _DAYS_IN_MONTH : list Z :=
  [31; 28; 31; 30; 31; 30; 31; 31; 30; 31; 30; 31].

Definition _days_in_month (year month : Z) : Z :=
  if (month =? 2) && _is_leap year then 29
  else nth (Z.to_nat (month - 1)) _DAYS_IN_MONTH 0.

Definition _days_before_month (year month : Z) : Z :=
  fold_right Z.add 0 (firstn (Z.to_nat (month - 1)) _DAYS_IN_MONTH)
  + (if (2 <? month) && _is_leap year then 1 else 0).

Definition _ymd2ord (year month day : Z) : Z :=
  _days_before_year year + _days_before_month year month + day.

(** The C [int] that [date] converts each of its arguments to. *)
Definition INT_MIN : Z := -2147483648.
Definition INT_MAX : Z := 2147483647.

Definition fits_int (n : Z) : bool := (INT_MIN <=? n) && (n <=? INT_MAX).

(** [date(year, month, day)]: [OverflowError] on a field that does not
    fit a C [int], then [ValueError] on fields out of range. *)
Definition date_ymd (year month day : Z) : outcome date :=
  if negb (fits_int year && fits_int month && fits_int day)
  then Raises OverflowError
  else if (MINYEAR <=? year) && (year <=? MAXYEAR)
          && (1 <=? month) && (month <=? 12)
          && (1 <=? day) && (day <=? _days_in_month year month)
  then Returns (_ymd2ord year month day)
  else Raises ValueError.

(** [timedelta(days=n)]: [OverflowError] beyond 999999999 days. *)
Definition timedelta (days : Z) : outcome Z :=
  if (-999999999 <=? days) && (days <=? 999999999)
  then Returns days
  else Raises OverflowError.

(** [d - delta]: [OverflowError] when the result is not a date. *)
Definition date_sub (d : date) (delta : Z) : outcome date :=
  let o := d - delta in
  if date_in_range o then Returns o else Raises OverflowError.

(** [list(rrule.rrule(rrule.DAILY, dtstart=start, until=end))], each
    element taken back to a date: every day from [start] to [end]
    inclusive, in increasing order; nothing when [end] is before
    [start]. *)
Definition rrule_daily (dtstart until : date) : list date :=
  seqZ dtstart (until - dtstart + 1).

(** ** Strings *)

Definition LF : string := String (ascii_of_nat 10) EmptyString.

(** [s.split(sep)] for a one-character separator. *)
Fixpoint split (sep : ascii) (s : string) : list string :=
  match s with
  | EmptyString => [EmptyString]
  | String c s' =>
      if Ascii.eqb c sep then EmptyString :: split sep s'
      else match split sep s' with
           | [] => [String c EmptyString]
           | w :: ws => String c w :: ws
           end
  end.

(** ** The coordinate reference table *)

Inductive table : Type :=
  | Coordinates (lat lon : float)
  | Places (children : gmap string table).

(** [operator.getitem(container, key)] with a string key: a dictionary
    raises [KeyError] on a missing key, a list raises [TypeError] on an
    index that is not an integer. *)
Definition getitem (container : table) (key : string) : outcome table :=
  match container with
  | Places children =>
      match children !! key with
      | Some v => Returns v
      | None => Raises KeyError
      end
  | Coordinates _ _ => Raises TypeError
  end.

(** [functools.reduce(function, iterable, initializer)]. *)
Fixpoint reduce {A B : Type} (function : A -> B -> outcome A)
    (iterable : list B) (initializer : A) : outcome A :=
  match iterable with
  | [] => Returns initializer
  | x :: rest =>
      match function initializer x with
      | Returns a => reduce function rest a
      | Raises e => Raises e
      end
  end.

(** [coordinates[i]] for an index [i] that is not negative: a list of
    two numbers raises [IndexError] from 2 on, and a dictionary loaded
    from JSON, whose keys are all strings, raises [KeyError]. *)
Definition index (coordinates : table) (i : nat) : outcome float :=
  match coordinates, i with
  | Coordinates lat _, 0%nat => Returns lat
  | Coordinates _ lon, 1%nat => Returns lon
  | Coordinates _ _, _ => Raises IndexError
  | Places _, _ => Raises KeyError
  end.

(** ** Instances and the method monad *)

(** The value of one date: [{'city': .., 'coordinates': ..}], with
    ['distance'] in a [DateDistanceCollection]. *)
Record assignment : Type := Assignment {
  city : string;
  coordinates : table;
  distance : option float
}.

(** The attributes of an instance, the text printed so far (one element
    per [print] call) and, as ghost state, the arguments of the calls of
    [_home_distance] made so far. *)
Record instance : Type := Instance {
  location_coordinates : table;
  locations : gmap Z (option assignment);
  home_coordinates : table;
  stdout : list string;
  home_distance_calls : list string
}.

Definition M (A : Type) : Type := instance -> outcome A * instance.

Definition ret {A : Type} (a : A) : M A := fun self => (Returns a, self).

Definition bind {A B : Type} (m : M A) (k : A -> M B) : M B :=
  fun self =>
    match m self with
    | (Returns a, self') => k a self'
    | (Raises e, self') => (Raises e, self')
    end.

Definition raise {A : Type} (e : exn) : M A := fun self => (Raises e, self).

Definition lift {A : Type} (r : outcome A) : M A := fun self => (r, self).

Definition gets {A : Type} (f : instance -> A) : M A :=
  fun self => (Returns (f self), self).

Definition modify (f : instance -> instance) : M unit :=
  fun self => (Returns tt, f self).

(** [try: body except e: handler]. *)
Definition try_except {A : Type} (body : M A) (e : exn) (handler : M A)
    : M A :=
  fun self =>
    match body self with
    | (Raises e', self') =>
        if exn_eqb e e' then handler self' else (Raises e', self')
    | r => r
    end.

Notation "'let*' x ':=' m 'in' k" := (bind m (fun x => k))
  (at level 10, x name, m at level 100, k at level 200).
Notation "'do' m 'then' k" := (bind m (fun _ => k))
  (at level 10, m at level 100, k at level 200).

(** [for x in l: body x]. *)
Fixpoint for_each {A : Type} (l : list A) (body : A -> M unit) : M unit :=
  match l with
  | [] => ret tt
  | x :: rest => do body x then for_each rest body
  end.

Definition set_location_coordinates (t : table) (self : instance)
    : instance :=
  Instance t (locations self) (home_coordinates self) (stdout self)
    (home_distance_calls self).

Definition set_locations (m : gmap Z (option assignment))
    (self : instance) : instance :=
  Instance (location_coordinates self) m (home_coordinates self)
    (stdout self) (home_distance_calls self).

Definition set_home_coordinates (t : table) (self : instance) : instance :=
  Instance (location_coordinates self) (locations self) t (stdout self)
    (home_distance_calls self).

(** [print(s)]. *)
Definition print (s : string) : M unit :=
  modify (fun self =>
    Instance (location_coordinates self) (locations self)
      (home_coordinates self) (stdout self ++ [s])
      (home_distance_calls self)).

(** Ghost: records one call of [_home_distance]. *)
Definition record_home_distance_call (location : string) : M unit :=
  modify (fun self =>
    Instance (location_coordinates self) (locations self)
      (home_coordinates self) (stdout self)
      (home_distance_calls self ++ [location])).

(** [self.locations[day] = value]. *)
Definition setitem_locations (day : date) (value : option assignment)
    : M unit :=
  modify (fun self => set_locations (<[day := value]> (locations self)) self).

(** ** Module-level function *)

(** Returns the date one day after checkin. *)
Definition first_morning (checkout_date : date) (nights : Z)
    : outcome date :=
  match timedelta (nights - 1) with
  | Returns delta => date_sub checkout_date delta
  | Raises e => Raises e
  end.

(** ** class DateCollection *)

Module DateCollection.

Definition COORDINATES_PATH : string := "data/coordinates.json".

(** Returns the coordinates for a location. *)
Definition _coordinates (location : string) : M table :=
  let location_list := split "/" location in
  try_except
    (let* t := gets location_coordinates in
     lift (reduce getitem location_list t))
    KeyError
    (do print (LF +:+ "Could not find coordinates for:") then
     do print location then
     do print (LF +:+ "Please add it to " +:+ COORDINATES_PATH
               +:+ "." +:+ LF) then
     raise SystemExit).

(** Returns a list of date objects in the given range. *)
Definition _inclusive_date_range (start_date end_date : date)
    : list date :=
  rrule_daily start_date end_date.

(** [{d: value for d in dates}]. *)
Definition dict_of_dates (value : option assignment) (dates : list date)
    : gmap Z (option assignment) :=
  foldl (fun m d => <[d := value]> m) ∅ dates.

(** Initialize a DateCollection.  [coordinates_json] is the parsed
    content of the file at [COORDINATES_PATH]. *)
Definition __init__ (coordinates_json : table)
    (start_date end_date : date) (default_location : option string)
    : M unit :=
  do modify (set_location_coordinates coordinates_json) then
  let* default_value :=
    match default_location with
    | None => ret None
    | Some l =>
        let* c := _coordinates l in
        ret (Some (Assignment l c None))
    end in
  modify (set_locations
    (dict_of_dates default_value
       (_inclusive_date_range start_date end_date))).

(** The body of the loop of [set_location]. *)
Definition set_location_day (location : string) (day : date) : M unit :=
  let* keys := gets (fun self => dom (locations self)) in
  if decide (day ∈ keys) then
    let* c := _coordinates location in
    setitem_locations day (Some (Assignment location c None))
  else ret tt.

(** Sets the locations for the dates in a given hotel stay. *)
Definition set_location (checkout_date : date) (nights : Z)
    (location : string) : M unit :=
  let* fm := lift (first_morning checkout_date nights) in
  let dates := _inclusive_date_range fm checkout_date in
  for_each dates (set_location_day location).

End DateCollection.

(** ** The [math] module *)

(** [math.sin], [math.cos], [math.sqrt], [math.atan2] and [x ** n] on
    floats; each may raise ([ValueError] outside its domain,
    [OverflowError]). *)
Class Math : Type := {
  math_sin : float -> outcome float;
  math_cos : float -> outcome float;
  math_sqrt : float -> outcome float;
  math_atan2 : float -> float -> outcome float;
  float_pow : float -> Z -> outcome float
}.

Definition math_pi : float := 0x1.921fb54442d18p+1%float.

(** ** class DateDistanceCollection(DateCollection) *)

Module DateDistanceCollection.
Section WithMath.
Context `{Math}.

Definition EARTH_MEAN_RADIUS : float := 3958.7613%float.
Definition DEG_TO_RAD : float := (math_pi / 180)%float.

(** [{**loc, 'distance': 0.0}]; [None] is not a mapping. *)
Definition with_distance_zero (loc : option assignment)
    : outcome (option assignment) :=
  match loc with
  | Some a =>
      Returns (Some (Assignment (city a) (coordinates a) (Some 0%float)))
  | None => Raises TypeError
  end.

(** Initialize a DateDistanceCollection. *)
Definition __init__ (coordinates_json : table)
    (start_year end_year : Z) (home_location : string) : M unit :=
  let* start_date := lift (date_ymd start_year 1 1) in
  let* end_date := lift (date_ymd end_year 12 31) in
  do DateCollection.__init__ coordinates_json start_date end_date
       (Some home_location) then
  let* c := DateCollection._coordinates home_location in
  do modify (set_home_coordinates c) then
  let* items := gets (fun self => map_to_list (locations self)) in
  for_each items (fun item =>
    let* v := lift (with_distance_zero (snd item)) in
    setitem_locations (fst item) v).

(** Returns the distance from home to the provided location.
    The Haversine formula is used to calculate the distance. *)
Definition _home_distance (location : string) : M float :=
  do record_home_distance_call location then
  let* location_coordinates := DateCollection._coordinates location in
  let* home_coordinates := gets home_coordinates in
  let* h0 := lift (index home_coordinates 0) in
  let phi_1 := (h0 * DEG_TO_RAD)%float in
  let* l0 := lift (index location_coordinates 0) in
  let phi_2 := (l0 * DEG_TO_RAD)%float in
  let* l0 := lift (index location_coordinates 0) in
  let* h0 := lift (index home_coordinates 0) in
  let delta_phi := ((l0 - h0) * DEG_TO_RAD)%float in
  let* l1 := lift (index location_coordinates 1) in
  let* h1 := lift (index home_coordinates 1) in
  let delta_lambda := ((l1 - h1) * DEG_TO_RAD)%float in
  let* s1 := lift (math_sin (delta_phi / 2)) in
  let* s1_2 := lift (float_pow s1 2) in
  let* c1 := lift (math_cos phi_1) in
  let* c2 := lift (math_cos phi_2) in
  let* s2 := lift (math_sin (delta_lambda / 2)) in
  let* s2_2 := lift (float_pow s2 2) in
  let a := (s1_2 + c1 * c2 * s2_2)%float in
  let* r1 := lift (math_sqrt a) in
  let* r2 := lift (math_sqrt (1 - a)) in
  let* t := lift (math_atan2 r1 r2) in
  let distance := (2 * EARTH_MEAN_RADIUS * t)%float in
  ret distance.

(** The body of the loop of [set_location]. *)
Definition set_location_day (location : string) (distance : float)
    (day : date) : M unit :=
  let* keys := gets (fun self => dom (locations self)) in
  if decide (day ∈ keys) then
    let* c := DateCollection._coordinates location in
    setitem_locations day (Some (Assignment location c (Some distance)))
  else ret tt.

(** Sets locations and distances.
    Sets the location, coordinates, and distances for the dates in a
    given hotel stay. *)
Definition set_location (checkout_date : date) (nights : Z)
    (location : string) : M unit :=
  let* fm := lift (first_morning checkout_date nights) in
  let dates := DateCollection._inclusive_date_range fm checkout_date in
  let* distance := _home_distance location in
  for_each dates (set_location_day location distance).

End WithMath.
End DateDistanceCollection.

(** ** Vocabulary of the statements *)

(** The walk of [_coordinates] through the table, without its
    [try]/[except]. *)
Definition resolve (t : table) (location : string) : outcome table :=
  reduce getitem (split "/" location) t.

(** What [_coordinates] prints before it exits. *)
Definition missing_message (location : string) : list string :=
  [ LF +:+ "Could not find coordinates for:";
    location;
    LF +:+ "Please add it to " +:+ DateCollection.COORDINATES_PATH
       +:+ "." +:+ LF ].

Definition printed (lines : list string) (self : instance) : instance :=
  Instance (location_coordinates self) (locations self)
    (home_coordinates self) (stdout self ++ lines)
    (home_distance_calls self).

Definition called (location : string) (self : instance) : instance :=
  Instance (location_coordinates self) (locations self)
    (home_coordinates self) (stdout self)
    (home_distance_calls self ++ [location]).

(** Overwriting with [value] the dates of [dates] that are keys of [m]. *)
Definition stamp (value : option assignment) (dates : list date)
    (m : gmap Z (option assignment)) : gmap Z (option assignment) :=
  foldl (fun m d => if decide (d ∈ dom m) then <[d := value]> m else m)
    m dates.

(** Some date of [dates] is a key of [m]. *)
Definition any_key (dates : list date) (m : gmap Z (option assignment))
    : bool :=
  existsb (fun d => bool_decide (d ∈ dom m)) dates.

(** Running a method twice in a row. *)
Definition twice (m : M unit) : M unit := do m then m.

(** A call of [set_location], on one class or the other. *)
Inductive call : Type :=
  | LocationCall (checkout_date : date) (nights : Z) (location : string)
  | DistanceCall (checkout_date : date) (nights : Z) (location : string).

(** Sequencing of results. *)
Definition and_then {A B : Type} (r : outcome A) (k : A -> outcome B)
    : outcome B :=
  match r with
  | Returns a => k a
  | Raises e => Raises e
  end.

Section Reference.
Context `{Math}.

(** The square of the sine. *)
Definition sin2 (x : float) : outcome float :=
  and_then (math_sin x) (fun s => float_pow s 2).

(** The haversine distance as the specification words it: with
    R = 3958.7613 miles and the home coordinates (phi1, lambda1) and
    destination coordinates (phi2, lambda2) converted from degrees to
    radians, a = sin²(Δφ/2) + cos(φ1)·cos(φ2)·sin²(Δλ/2) and
    distance = 2·R·atan2(√a, √(1−a)). *)
Definition haversine_reference (phi1 lambda1 phi2 lambda2 : float)
    : outcome float :=
  let R := 3958.7613%float in
  let radians := (fun degrees => degrees * (math_pi / 180))%float in
  let delta_phi := radians (phi2 - phi1)%float in
  let delta_lambda := radians (lambda2 - lambda1)%float in
  and_then (sin2 (delta_phi / 2)) (fun h_phi =>
  and_then (math_cos (radians phi1)) (fun cos_phi1 =>
  and_then (math_cos (radians phi2)) (fun cos_phi2 =>
  and_then (sin2 (delta_lambda / 2)) (fun h_lambda =>
  let a := (h_phi + cos_phi1 * cos_phi2 * h_lambda)%float in
  and_then (math_sqrt a) (fun sqrt_a =>
  and_then (math_sqrt (1 - a)) (fun sqrt_1_a =>
  and_then (math_atan2 sqrt_a sqrt_1_a) (fun angle =>
  Returns (2 * R * angle)%float))))))).

End Reference.

Section Calls.
Context `{Math}.

(** The instance after a call, however the call ended. *)
Definition after_call (self : instance) (k : call) : instance :=
  match k with
  | LocationCall c n l => (DateCollection.set_location c n l self).2
  | DistanceCall c n l =>
      (DateDistanceCollection.set_location c n l self).2
  end.

Definition after_calls (self : instance) (ks : list call) : instance :=
  foldl after_call self ks.

End Calls.

(** An instance of [Math] to run examples with: the square root of
    binary64, powers by repeated multiplication, and the small-angle
    values of the sine, the cosine and the arc tangent. *)
Definition small_angle_math : Math := {|
  math_sin := fun x => Returns x;
  math_cos := fun x => Returns 1%float;
  math_sqrt := fun x =>
    if (x <? 0)%float then Raises ValueError else Returns (sqrt x);
  math_atan2 := fun y x => Returns (y / x)%float;
  float_pow := fun x n =>
    if n <? 0 then Raises ValueError
    else Returns (Z.iter n (fun p => p * x)%float 1%float)
|}.

(** A table, an instance and a calendar to run examples with. *)
Definition example_table : table :=
  Places {[ "US"%string :=
    Places {[ "Chicago"%string := Coordinates 41.9 (-87.6);
              "Denver"%string := Coordinates 39.7 (-105.0) ]} ]}.

Definition blank : instance := Instance (Places ∅) ∅ (Places ∅) [] [].

(** 2024-03-08 to 2024-03-10, every date unset. *)
Definition example_calendar : instance :=
  (DateCollection.__init__ example_table 738953 738955 None blank).2.

(** The year 2024, every date at home in Chicago. *)
Definition example_distance_calendar : instance :=
  (DateDistanceCollection.__init__ example_table 2024 2024 "US/Chicago"
     blank).2.

(** What [_home_distance] returns for Denver on that calendar, with the
    small-angle functions. *)
Definition example_distance : float :=
  match (@DateDistanceCollection._home_distance small_angle_math
           "US/Denver" example_distance_calendar).1 with
  | Returns d => d
  | Raises _ => 0%float
  end.

(** What [_home_distance] returns for a place on that calendar, with the
    small-angle functions. *)
Definition example_distance_to (l : string) : float :=
  match (@DateDistanceCollection._home_distance small_angle_math l
           example_distance_calendar).1 with
  | Returns d => d
  | Raises _ => 0%float
  end.

(** Every entry that is set holds the coordinates that the table gives
    for its city. *)
Definition consistent (self : instance) : Prop :=
  forall d a,
    locations self !! d = Some (Some a) ->
    resolve (location_coordinates self) (city a) = Returns (coordinates a).

(** Every entry is set and has a distance. *)
Definition complete (self : instance) : Prop :=
  forall d x,
    locations self !! d = Some x ->
    exists a f, x = Some a /\ distance a = Some f.

(** Calls of [set_location] on the distance calendar, from their
    arguments. *)
Definition distance_calls (args : list (Z * Z * string)) : list call :=
  (fun a => DistanceCall a.1.1 a.1.2 a.2) <$> args.

(** Calls of [set_location] of [DateCollection], from their arguments. *)
Definition location_calls (args : list (Z * Z * string)) : list call :=
  (fun a => LocationCall a.1.1 a.1.2 a.2) <$> args.

(** [timedelta] takes the number of days before [checkout_date], and the
    first morning is a date. *)
Definition representable (checkout_date nights : Z) : Prop :=
  -999999999 <= nights - 1 <= 999999999
  /\ 1 <= checkout_date - (nights - 1) <= _MAXORDINAL.

(** What [date(year, 1, 1)] and [date(year, 12, 31)] raise, if they
    raise. *)
Definition year_error (year : Z) : option exn :=
  if negb (fits_int year) then Some OverflowError
  else if (1 <=? year) && (year <=? 9999) then None
  else Some ValueError.

(** 0001-01-01 to 0001-01-03, every date unset. *)
Definition first_days : instance :=
  (DateCollection.__init__ example_table 1 3 None blank).2.

(** ** Dates *)

Example ordinals :
  date_ymd 1 1 1 = Returns 1
  /\ date_ymd 1970 1 1 = Returns 719163
  /\ date_ymd 9999 12 31 = Returns _MAXORDINAL
  /\ date_ymd 2024 2 29 = Returns 738945
  /\ date_ymd 2023 2 29 = Raises ValueError
  /\ date_ymd 0 1 1 = Raises ValueError
  /\ date_ymd 2147483648 1 1 = Raises OverflowError.
Proof. by vm_compute. Qed.

Example split_examples :
  split "/" "US/Illinois/Chicago" = ["US"; "Illinois"; "Chicago"]%string
  /\ split "/" "Chicago" = ["Chicago"%string]
  /\ split "/" "" = [""%string]
  /\ split "/" "US//Chicago/" = ["US"; ""; "Chicago"; ""]%string.
Proof. by vm_compute. Qed.

Lemma elem_of_rrule_daily (s e d : date) :
  d ∈ rrule_daily s e <-> s <= d <= e.
Proof.
  unfold rrule_daily. rewrite elem_of_seqZ. lia.
Qed.

Lemma rrule_daily_empty (s e : date) : e < s -> rrule_daily s e = [].
Proof.
  intros Hlt. unfold rrule_daily, seqZ.
  replace (Z.to_nat (e - s + 1)) with O by lia. reflexivity.
Qed.

Lemma first_morning_returns (c n fm : Z) :
  first_morning c n = Returns fm -> fm = c - (n - 1).
Proof.
  unfold first_morning, timedelta, date_sub.
  repeat case_match; congruence.
Qed.


(** ** The mapping *)

Lemma lookup_dict_of_dates_from (v : option assignment) (dates : list date)
    (m : gmap Z (option assignment)) (d : date) :
  foldl (fun m d => <[d := v]> m) m dates !! d
  = if decide (d ∈ dates) then Some v else m !! d.
Proof.
  revert m. induction dates as [|x dates IH]; intros m; cbn [foldl].
  - destruct (decide (d ∈ [])) as [Hin|_]; [|done].
    by apply elem_of_nil in Hin.
  - rewrite IH.
    destruct (decide (d ∈ dates)) as [Hd|Hd];
      destruct (decide (d ∈ x :: dates)) as [Hxd|Hxd]; try done.
    + exfalso. apply Hxd. by apply elem_of_cons; right.
    + apply elem_of_cons in Hxd as [->|Hxd]; [|done].
      apply lookup_insert_eq.
    + apply lookup_insert_ne. intros ->. apply Hxd.
      by apply elem_of_cons; left.
Qed.

Lemma lookup_dict_of_dates (v : option assignment) (dates : list date)
    (d : date) :
  DateCollection.dict_of_dates v dates !! d
  = if decide (d ∈ dates) then Some v else None.
Proof.
  unfold DateCollection.dict_of_dates.
  rewrite lookup_dict_of_dates_from. by rewrite lookup_empty.
Qed.

Lemma dom_insert_key (v : option assignment)
    (m : gmap Z (option assignment)) (x : date) :
  x ∈ dom m -> dom (<[x := v]> m) = dom m.
Proof.
  intros Hx. apply dom_insert_lookup_L. by apply elem_of_dom.
Qed.

Lemma dom_stamp (v : option assignment) (dates : list date)
    (m : gmap Z (option assignment)) :
  dom (stamp v dates m) = dom m.
Proof.
  revert m. unfold stamp.
  induction dates as [|x dates IH]; intros m; cbn [foldl]; [done|].
  rewrite IH. destruct (decide (x ∈ dom m)) as [Hin|Hin]; [|done].
  by apply dom_insert_key.
Qed.

Lemma lookup_stamp (v : option assignment) (dates : list date)
    (m : gmap Z (option assignment)) (d : date) :
  stamp v dates m !! d
  = if decide (d ∈ dates /\ d ∈ dom m) then Some v else m !! d.
Proof.
  revert m. induction dates as [|x dates IH]; intros m.
  - cbn. destruct (decide (d ∈ [] /\ d ∈ dom m)) as [[Hin _]|_]; [|done].
    by apply elem_of_nil in Hin.
  - change (stamp v (x :: dates) m)
      with (stamp v dates
              (if decide (x ∈ dom m) then <[x := v]> m else m)).
    rewrite IH. clear IH.
    destruct (decide (x ∈ dom m)) as [Hx|Hx].
    + rewrite dom_insert_key by done.
      destruct (decide (d ∈ dates /\ d ∈ dom m)) as [Hd|Hd];
        destruct (decide (d ∈ x :: dates /\ d ∈ dom m)) as [Hxd|Hxd];
        try done.
      * exfalso. apply Hxd. destruct Hd. split; [|done].
        by apply elem_of_cons; right.
      * destruct Hxd as [Hxd Hdom].
        apply elem_of_cons in Hxd as [->|Hxd]; [|by exfalso; apply Hd].
        apply lookup_insert_eq.
      * apply lookup_insert_ne. intros ->. apply Hxd. split; [|done].
        by apply elem_of_cons; left.
    + destruct (decide (d ∈ dates /\ d ∈ dom m)) as [Hd|Hd];
        destruct (decide (d ∈ x :: dates /\ d ∈ dom m)) as [Hxd|Hxd];
        try done.
      * exfalso. apply Hxd. destruct Hd. split; [|done].
        by apply elem_of_cons; right.
      * exfalso. destruct Hxd as [Hxd Hdom].
        apply elem_of_cons in Hxd as [->|Hxd]; [done|].
        by apply Hd.
Qed.

Lemma stamp_idempotent (v : option assignment) (dates : list date)
    (m : gmap Z (option assignment)) :
  stamp v dates (stamp v dates m) = stamp v dates m.
Proof.
  apply map_eq. intros d. rewrite !lookup_stamp, dom_stamp.
  repeat case_decide; done.
Qed.

(** ** [_coordinates] *)

Lemma set_locations_same (self : instance) :
  set_locations (locations self) self = self.
Proof. by destruct self. Qed.

Lemma coordinates_returns (l : string) (self : instance) (v : table) :
  resolve (location_coordinates self) l = Returns v ->
  DateCollection._coordinates l self = (Returns v, self).
Proof.
  unfold resolve, DateCollection._coordinates, try_except, bind, gets, lift.
  by intros ->.
Qed.

Lemma coordinates_missing (l : string) (self : instance) :
  resolve (location_coordinates self) l = Raises KeyError ->
  DateCollection._coordinates l self
  = (Raises SystemExit, printed (missing_message l) self).
Proof.
  unfold resolve, DateCollection._coordinates, try_except, bind, gets, lift.
  intros ->. cbn. unfold printed, missing_message. cbn.
  by rewrite <- !app_assoc.
Qed.

Lemma coordinates_raises (l : string) (self : instance) (e : exn) :
  resolve (location_coordinates self) l = Raises e ->
  e <> KeyError ->
  DateCollection._coordinates l self = (Raises e, self).
Proof.
  unfold resolve, DateCollection._coordinates, try_except, bind, gets, lift.
  intros -> Hne. by destruct e.
Qed.

(** Whatever happens, [_coordinates] leaves the attributes alone. *)
Lemma coordinates_cases (l : string) (self : instance) :
  (exists v, resolve (location_coordinates self) l = Returns v
             /\ DateCollection._coordinates l self = (Returns v, self))
  \/ (exists e self',
        DateCollection._coordinates l self = (Raises e, self')
        /\ (self' = self \/ self' = printed (missing_message l) self)).
Proof.
  destruct (resolve (location_coordinates self) l) as [v|e] eqn:Hr.
  - left. exists v. split; [done|]. by apply coordinates_returns.
  - right. destruct e.
    1: { exists SystemExit, (printed (missing_message l) self).
         split; [by apply coordinates_missing | by right]. }
    all: eexists _, self; split;
      [by apply coordinates_raises | by left].
Qed.

(** ** The loops of [set_location] *)

Lemma for_each_set_location_day (l : string) (v : table)
    (dates : list date) (self : instance) :
  resolve (location_coordinates self) l = Returns v ->
  for_each dates (DateCollection.set_location_day l) self
  = (Returns tt,
     set_locations
       (stamp (Some (Assignment l v None)) dates (locations self)) self).
Proof.
  revert self. induction dates as [|d dates IH]; intros self Hr.
  - cbn. by rewrite set_locations_same.
  - cbn [for_each]. unfold bind at 1.
    unfold DateCollection.set_location_day at 1.
    unfold bind at 1, gets at 1.
    unfold stamp. cbn [foldl]. fold (stamp (Some (Assignment l v None))).
    destruct (decide (d ∈ dom (locations self))) as [Hd|Hd].
    + unfold bind. rewrite (coordinates_returns l self v Hr).
      unfold setitem_locations, modify.
      rewrite IH by done. reflexivity.
    + unfold ret. by rewrite IH.
Qed.

Lemma for_each_set_location_day_raises (l : string) (e : exn)
    (dates : list date) (self self' : instance) :
  DateCollection._coordinates l self = (Raises e, self') ->
  for_each dates (DateCollection.set_location_day l) self
  = if any_key dates (locations self) then (Raises e, self')
    else (Returns tt, self).
Proof.
  intros Hc. induction dates as [|d dates IH]; [done|].
  cbn [for_each any_key existsb]. unfold bind at 1.
  unfold DateCollection.set_location_day at 1.
  unfold bind at 1, gets at 1.
  destruct (decide (d ∈ dom (locations self))) as [Hd|Hd].
  - rewrite bool_decide_eq_true_2 by done. unfold bind. by rewrite Hc.
  - rewrite bool_decide_eq_false_2 by done. unfold ret. apply IH.
Qed.

(** ** [DateDistanceCollection] *)

Section Distance.
Context `{Math}.

Lemma bind_lift {A B : Type} (r : outcome A) (k : A -> M B)
    (self : instance) :
  bind (lift r) k self
  = match r with
    | Returns a => k a self
    | Raises e => (Raises e, self)
    end.
Proof. unfold bind, lift. by destruct r. Qed.

Lemma bind_lift_same_state {A B : Type} (r : outcome A) (k : A -> M B)
    (self : instance) :
  (forall a, exists rb, k a self = (rb, self)) ->
  exists rb, bind (lift r) k self = (rb, self).
Proof.
  intros Hk. rewrite bind_lift. destruct r as [a|e]; [apply Hk|].
  by eexists.
Qed.

(** Once the lookup has succeeded, [_home_distance] only computes. *)
Lemma home_distance_computes (l : string) (v : table) (self : instance) :
  resolve (location_coordinates self) l = Returns v ->
  exists r, DateDistanceCollection._home_distance l self
            = (r, called l self).
Proof.
  intros Hr. unfold DateDistanceCollection._home_distance.
  unfold bind at 1. unfold record_home_distance_call, modify.
  fold (called l self).
  unfold bind at 1.
  rewrite (coordinates_returns l (called l self) v) by done.
  unfold bind at 1, gets at 1.
  repeat (apply bind_lift_same_state; intros ?).
  by eexists.
Qed.

Lemma home_distance_cases (l : string) (self : instance) :
  (exists v r, resolve (location_coordinates self) l = Returns v
               /\ DateDistanceCollection._home_distance l self
                  = (r, called l self))
  \/ (exists e self',
        DateDistanceCollection._home_distance l self = (Raises e, self')
        /\ (self' = called l self
            \/ self' = printed (missing_message l) (called l self))).
Proof.
  destruct (coordinates_cases l (called l self))
    as [(v & Hr & Hc)|(e & self' & Hc & Hs)].
  - left. destruct (home_distance_computes l v self Hr) as [r Hd].
    by exists v, r.
  - right. exists e, self'. split; [|done].
    unfold DateDistanceCollection._home_distance.
    unfold bind at 1. unfold record_home_distance_call, modify.
    fold (called l self). unfold bind at 1. by rewrite Hc.
Qed.

Lemma home_distance_returns (l : string) (dist : float)
    (self self' : instance) :
  DateDistanceCollection._home_distance l self = (Returns dist, self') ->
  self' = called l self
  /\ exists v, resolve (location_coordinates self) l = Returns v.
Proof.
  intros Hd.
  destruct (home_distance_cases l self)
    as [(v & r & Hr & Hd')|(e & s' & Hd' & _)];
    rewrite Hd' in Hd; [|done].
  injection Hd as -> <-. split; [done|by exists v].
Qed.

Lemma for_each_set_location_day_distance (l : string) (v : table)
    (dist : float) (dates : list date) (self : instance) :
  resolve (location_coordinates self) l = Returns v ->
  for_each dates (DateDistanceCollection.set_location_day l dist) self
  = (Returns tt,
     set_locations
       (stamp (Some (Assignment l v (Some dist))) dates (locations self))
       self).
Proof.
  revert self. induction dates as [|d dates IH]; intros self Hr.
  - cbn. by rewrite set_locations_same.
  - cbn [for_each]. unfold bind at 1.
    unfold DateDistanceCollection.set_location_day at 1.
    unfold bind at 1, gets at 1.
    unfold stamp. cbn [foldl].
    fold (stamp (Some (Assignment l v (Some dist)))).
    destruct (decide (d ∈ dom (locations self))) as [Hd|Hd].
    + unfold bind. rewrite (coordinates_returns l self v Hr).
      unfold setitem_locations, modify.
      rewrite IH by done. reflexivity.
    + unfold ret. by rewrite IH.
Qed.

(** The whole of a call that goes through. *)
Lemma distance_set_location_returns (c n fm : Z) (l : string)
    (v : table) (dist : float) (self self1 : instance) :
  first_morning c n = Returns fm ->
  resolve (location_coordinates self) l = Returns v ->
  DateDistanceCollection._home_distance l self = (Returns dist, self1) ->
  DateDistanceCollection.set_location c n l self
  = (Returns tt,
     set_locations
       (stamp (Some (Assignment l v (Some dist))) (rrule_daily fm c)
          (locations self))
       (called l self)).
Proof.
  intros Hfm Hr Hd.
  destruct (home_distance_returns l dist self self1 Hd) as [-> _].
  unfold DateDistanceCollection.set_location.
  rewrite bind_lift, Hfm. unfold bind at 1. rewrite Hd.
  unfold DateCollection._inclusive_date_range.
  by rewrite (for_each_set_location_day_distance l v).
Qed.

Lemma base_set_location_returns (c n fm : Z) (l : string) (v : table)
    (self : instance) :
  first_morning c n = Returns fm ->
  resolve (location_coordinates self) l = Returns v ->
  DateCollection.set_location c n l self
  = (Returns tt,
     set_locations
       (stamp (Some (Assignment l v None)) (rrule_daily fm c)
          (locations self))
       self).
Proof.
  intros Hfm Hr. unfold DateCollection.set_location.
  rewrite bind_lift, Hfm.
  unfold DateCollection._inclusive_date_range.
  by apply for_each_set_location_day.
Qed.

Lemma base_set_location_raises (c n fm : Z) (l : string) (e : exn)
    (self self' : instance) :
  first_morning c n = Returns fm ->
  DateCollection._coordinates l self = (Raises e, self') ->
  DateCollection.set_location c n l self
  = if any_key (rrule_daily fm c) (locations self) then (Raises e, self')
    else (Returns tt, self).
Proof.
  intros Hfm Hc. unfold DateCollection.set_location.
  rewrite bind_lift, Hfm.
  unfold DateCollection._inclusive_date_range.
  by apply for_each_set_location_day_raises.
Qed.

Lemma base_set_location_dom (c n : Z) (l : string) (self : instance) :
  dom (locations (DateCollection.set_location c n l self).2)
  = dom (locations self).
Proof.
  destruct (first_morning c n) as [fm|e] eqn:Hfm.
  - destruct (coordinates_cases l self)
      as [(v & Hr & _)|(e & self' & Hc & Hs)].
    + rewrite (base_set_location_returns c n fm l v) by done.
      cbn. apply dom_stamp.
    + rewrite (base_set_location_raises c n fm l e self self') by done.
      destruct (any_key _ _); [|done].
      by destruct Hs as [->| ->].
  - unfold DateCollection.set_location. by rewrite bind_lift, Hfm.
Qed.

Lemma distance_set_location_dom (c n : Z) (l : string)
    (self : instance) :
  dom (locations (DateDistanceCollection.set_location c n l self).2)
  = dom (locations self).
Proof.
  destruct (first_morning c n) as [fm|e] eqn:Hfm.
  - destruct (home_distance_cases l self)
      as [(v & r & Hr & Hd)|(e & self' & Hd & Hs)].
    + destruct r as [dist|e].
      * rewrite (distance_set_location_returns c n fm l v dist self
                   (called l self)) by done.
        cbn. apply dom_stamp.
      * unfold DateDistanceCollection.set_location.
        rewrite bind_lift, Hfm. unfold bind. by rewrite Hd.
    + unfold DateDistanceCollection.set_location.
      rewrite bind_lift, Hfm. unfold bind. rewrite Hd.
      by destruct Hs as [->| ->].
  - unfold DateDistanceCollection.set_location.
    by rewrite bind_lift, Hfm.
Qed.

End Distance.

(** ** Construction *)

Lemma init_without_default (json : table) (s e : date) (self : instance) :
  DateCollection.__init__ json s e None self
  = (Returns tt,
     Instance json (DateCollection.dict_of_dates None (rrule_daily s e))
       (home_coordinates self) (stdout self) (home_distance_calls self)).
Proof. reflexivity. Qed.

Lemma init_with_default (json : table) (s e : date) (l : string)
    (v : table) (self : instance) :
  resolve json l = Returns v ->
  DateCollection.__init__ json s e (Some l) self
  = (Returns tt,
     Instance json
       (DateCollection.dict_of_dates (Some (Assignment l v None))
          (rrule_daily s e))
       (home_coordinates self) (stdout self) (home_distance_calls self)).
Proof.
  intros Hr. unfold DateCollection.__init__.
  unfold bind at 1, modify at 1. unfold bind at 1, bind at 1.
  rewrite (coordinates_returns l (set_location_coordinates json self) v)
    by done.
  reflexivity.
Qed.

Lemma init_default_raises (json : table) (s e : date) (l : string)
    (x : exn) (self : instance) :
  resolve json l = Raises x ->
  exists x' self',
    DateCollection.__init__ json s e (Some l) self = (Raises x', self')
    /\ locations self' = locations self
    /\ (x = KeyError ->
        x' = SystemExit
        /\ stdout self' = stdout self ++ missing_message l).
Proof.
  intros Hr. unfold DateCollection.__init__.
  unfold bind at 1, modify at 1. unfold bind at 1, bind at 1.
  destruct x.
  1: { rewrite (coordinates_missing l (set_location_coordinates json self))
         by done.
       eexists _, _. split; [done|]. split; [done|]. done. }
  all: rewrite (coordinates_raises l (set_location_coordinates json self)
                  _ Hr) by done;
    eexists _, _; split; [done|]; split; done.
Qed.

Lemma init_keys (json : table) (s e : date) (default : option string)
    (self self' : instance) (d : date) :
  DateCollection.__init__ json s e default self = (Returns tt, self') ->
  d ∈ dom (locations self') <-> s <= d <= e.
Proof.
  intros Hinit.
  assert (exists v, locations self'
                    = DateCollection.dict_of_dates v (rrule_daily s e))
    as [v Hm].
  { destruct default as [l|].
    - destruct (resolve json l) as [t|x] eqn:Hr.
      + rewrite (init_with_default json s e l t) in Hinit by done.
        injection Hinit as <-. by eexists.
      + destruct (init_default_raises json s e l x self Hr)
          as (x' & s' & Hx & _).
        congruence.
    - rewrite init_without_default in Hinit.
      injection Hinit as <-. by eexists. }
  rewrite Hm, elem_of_dom, lookup_dict_of_dates.
  rewrite <- elem_of_rrule_daily.
  destruct (decide (d ∈ rrule_daily s e)) as [Hd|Hd].
  - split; [done|]. by eexists.
  - split; [|done]. by intros [? ?].
Qed.

Section CallsFacts.
Context `{Math}.

Lemma after_calls_dom (self : instance) (ks : list call) :
  dom (locations (after_calls self ks)) = dom (locations self).
Proof.
  revert self. induction ks as [|k ks IH]; intros self; [done|].
  cbn [after_calls foldl]. fold (after_calls (after_call self k) ks).
  rewrite IH. destruct k as [c n l|c n l]; cbn [after_call].
  - apply base_set_location_dom.
  - apply distance_set_location_dom.
Qed.

End CallsFacts.

(** C1.  After a construction the keys of the mapping are exactly the
    dates from [start_date] to [end_date] inclusive, and they still are
    after any sequence of [set_location] calls on either class, whatever
    the arguments and however each call ends. *)
Theorem key_set_fixed `{Math} (coordinates_json : table)
    (start_date end_date : date) (default_location : option string)
    (self self' : instance) (ks : list call) (d : date) :
  start_date <= end_date ->
  DateCollection.__init__ coordinates_json start_date end_date
    default_location self = (Returns tt, self') ->
  (d ∈ dom (locations self') <-> start_date <= d <= end_date)
  /\ dom (locations (after_calls self' ks)) = dom (locations self').
Proof.
  intros _ Hinit. split.
  - by apply (init_keys coordinates_json start_date end_date
                default_location self).
  - apply after_calls_dom.
Qed.

Lemma key_set_fixed_witness :
  (738954 ∈ dom (locations example_calendar) <-> 738953 <= 738954 <= 738955)
  /\ dom (locations
            (@after_calls small_angle_math example_calendar
               [LocationCall 738954 2 "US/Chicago";
                DistanceCall 738960 9 "US/Denver";
                LocationCall 738955 1 "US/Boston"]))
     = dom (locations example_calendar).
Proof.
  apply (@key_set_fixed small_angle_math example_table 738953 738955 None
           blank example_calendar).
  - lia.
  - reflexivity.
Defined.

(** ** The stay *)




(** C2 as stated fails: 0001-01-02 is a date and 3 a number of nights,
    but there is no date two days before 0001-01-02.  On a calendar that
    has the checkout date, the call raises [OverflowError] on either class
    and targets no date: the checkout date stays unset. *)
Lemma stay_date_range_counterexample :
  date_ymd 1 1 2 = Returns 2
  /\ 1 <= 3
  /\ locations first_days !! 2 = Some None
  /\ first_morning 2 3 = Raises OverflowError
  /\ DateCollection.set_location 2 3 "US/Chicago" first_days
     = (Raises OverflowError, first_days)
  /\ @DateDistanceCollection.set_location small_angle_math 2 3
       "US/Chicago" first_days
     = (Raises OverflowError, first_days)
  /\ locations
       (DateCollection.set_location 2 3 "US/Chicago" first_days).2 !! 2
     = Some None.
Proof. by vm_compute. Qed.

(** The example of the specification: a stay of 3 nights with checkout
    on 2024-03-10 covers 2024-03-08, 2024-03-09 and 2024-03-10. *)
Example stay_2024_03_10 :
  date_ymd 2024 3 10 = Returns 738955
  /\ first_morning 738955 3 = Returns 738953
  /\ DateCollection._inclusive_date_range 738953 738955
     = [738953; 738954; 738955]
  /\ date_ymd 2024 3 8 = Returns 738953.
Proof. by vm_compute. Qed.

(** ** Years *)

Lemma fits_int_year (year : Z) :
  1 <= year <= 9999 -> fits_int year = true.
Proof.
  intros Hyear. unfold fits_int, INT_MIN, INT_MAX.
  apply andb_true_iff. lia.
Qed.

Lemma date_ymd_january_1 (year : Z) :
  1 <= year <= 9999 ->
  date_ymd year 1 1 = Returns (_ymd2ord year 1 1).
Proof.
  intros [Hlo Hhi]. unfold date_ymd, MINYEAR, MAXYEAR.
  rewrite fits_int_year by done.
  replace (_days_in_month year 1) with 31 by reflexivity.
  apply Z.leb_le in Hlo, Hhi. by rewrite Hlo, Hhi.
Qed.

Lemma date_ymd_december_31 (year : Z) :
  1 <= year <= 9999 ->
  date_ymd year 12 31 = Returns (_ymd2ord year 12 31).
Proof.
  intros [Hlo Hhi]. unfold date_ymd, MINYEAR, MAXYEAR.
  rewrite fits_int_year by done.
  replace (_days_in_month year 12) with 31 by reflexivity.
  apply Z.leb_le in Hlo, Hhi. by rewrite Hlo, Hhi.
Qed.

(** ** A missing place *)

Section Missing.
Context `{Math}.

Lemma distance_init_missing (json : table) (sy ey : Z) (l : string)
    (self : instance) :
  1 <= sy <= 9999 -> 1 <= ey <= 9999 ->
  resolve json l = Raises KeyError ->
  DateDistanceCollection.__init__ json sy ey l self
  = (Raises SystemExit,
     printed (missing_message l) (set_location_coordinates json self)).
Proof.
  intros Hsy Hey Hr. unfold DateDistanceCollection.__init__.
  rewrite bind_lift, date_ymd_january_1 by done.
  rewrite bind_lift, date_ymd_december_31 by done.
  unfold bind at 1. unfold DateCollection.__init__.
  unfold bind at 1, modify at 1. unfold bind at 1, bind at 1.
  by rewrite (coordinates_missing l (set_location_coordinates json self)).
Qed.

Lemma init_missing (json : table) (s e : date) (l : string)
    (self : instance) :
  resolve json l = Raises KeyError ->
  DateCollection.__init__ json s e (Some l) self
  = (Raises SystemExit,
     printed (missing_message l) (set_location_coordinates json self)).
Proof.
  intros Hr. unfold DateCollection.__init__.
  unfold bind at 1, modify at 1. unfold bind at 1, bind at 1.
  by rewrite (coordinates_missing l (set_location_coordinates json self)).
Qed.

Lemma distance_set_location_missing (c n fm : Z) (l : string)
    (self : instance) :
  first_morning c n = Returns fm ->
  resolve (location_coordinates self) l = Raises KeyError ->
  DateDistanceCollection.set_location c n l self
  = (Raises SystemExit, printed (missing_message l) (called l self)).
Proof.
  intros Hfm Hr. unfold DateDistanceCollection.set_location.
  rewrite bind_lift, Hfm. unfold bind at 1.
  unfold DateDistanceCollection._home_distance.
  unfold bind at 1. unfold record_home_distance_call, modify.
  fold (called l self). unfold bind at 1.
  by rewrite (coordinates_missing l (called l self)).
Qed.

End Missing.

(** C3, as the code has it.  Let a place walk into a dictionary that
    lacks its next segment.  Construction with that place as default, on
    either class, and [set_location] of [DateDistanceCollection] print
    the place and the path of the reference file and exit, with no entry
    of the mapping written.  [set_location] of [DateCollection] does so
    when some date of the stay is a key of the mapping; when none is, it
    does not look the place up and returns with nothing printed and
    nothing written. *)
Theorem fatal_lookup `{Math} (json : table) (l : string) (self : instance) :
  resolve json l = Raises KeyError ->
  location_coordinates self = json ->
  missing_message l
    = [ LF +:+ "Could not find coordinates for:"; l;
        LF +:+ "Please add it to data/coordinates.json." +:+ LF ]
  /\ (forall s e self0,
        DateCollection.__init__ json s e (Some l) self0
        = (Raises SystemExit,
           printed (missing_message l)
             (set_location_coordinates json self0)))
  /\ (forall sy ey self0,
        1 <= sy <= 9999 -> 1 <= ey <= 9999 ->
        DateDistanceCollection.__init__ json sy ey l self0
        = (Raises SystemExit,
           printed (missing_message l)
             (set_location_coordinates json self0)))
  /\ (forall c n fm,
        first_morning c n = Returns fm ->
        DateDistanceCollection.set_location c n l self
        = (Raises SystemExit,
           printed (missing_message l) (called l self)))
  /\ (forall c n fm,
        first_morning c n = Returns fm ->
        DateCollection.set_location c n l self
        = if any_key (rrule_daily fm c) (locations self)
          then (Raises SystemExit, printed (missing_message l) self)
          else (Returns tt, self)).
Proof.
  intros Hr Hjson. subst json.
  split; [reflexivity|]. split; [|split; [|split]].
  - intros s e self0. by apply init_missing.
  - intros sy ey self0 Hsy Hey. by apply distance_init_missing.
  - intros c n fm Hfm. by apply (distance_set_location_missing c n fm).
  - intros c n fm Hfm.
    apply (base_set_location_raises c n fm l SystemExit); [done|].
    by apply coordinates_missing.
Qed.

Lemma fatal_lookup_witness :
  DateCollection.set_location 738955 3 "US/Boston" example_calendar
  = (Raises SystemExit,
     printed (missing_message "US/Boston") example_calendar).
Proof.
  pose proof (@fatal_lookup small_angle_math example_table "US/Boston"
                example_calendar eq_refl eq_refl)
    as (_ & _ & _ & _ & Hbase).
  exact (Hbase 738955 3 738953 eq_refl).
Defined.

(** C3 as stated fails: a stay with no date in the calendar and a place
    that is missing from the table.  [set_location] of [DateCollection]
    returns, prints nothing and exits nothing. *)
Lemma fatal_lookup_counterexample :
  resolve (location_coordinates example_calendar) "US/Boston"
    = Raises KeyError
  /\ DateCollection.set_location 738900 2 "US/Boston" example_calendar
     = (Returns tt, example_calendar)
  /\ stdout example_calendar = [].
Proof. by vm_compute. Qed.

(** A place that walks past a coordinate pair: the [TypeError] of the
    list is not a [KeyError], nothing is printed. *)
Example walk_past_a_pair :
  DateCollection._coordinates "US/Chicago/Loop" example_calendar
  = (Raises TypeError, example_calendar).
Proof. by vm_compute. Qed.

(** ** Overwriting *)

Lemma lookup_stamp_stay (value : option assignment) (c n : Z)
    (m : gmap Z (option assignment)) (d : date) :
  stamp value (rrule_daily (c - (n - 1)) c) m !! d
  = if decide (c - (n - 1) <= d <= c /\ d ∈ dom m) then Some value
    else m !! d.
Proof.
  rewrite lookup_stamp.
  destruct (decide (d ∈ rrule_daily (c - (n - 1)) c /\ d ∈ dom m))
    as [[Hd Hk]|Hd];
    destruct (decide (c - (n - 1) <= d <= c /\ d ∈ dom m))
      as [[Hd' Hk']|Hd']; try done.
  - exfalso. apply Hd'. split; [|done]. by apply elem_of_rrule_daily.
  - exfalso. apply Hd. split; [|done]. by apply elem_of_rrule_daily.
Qed.

(** C4.  A call that goes through (the first morning is a date, the
    place resolves and, on [DateDistanceCollection], its distance
    computes) overwrites the dates of the stay that are keys of the
    mapping and nothing else: the dates of the stay outside the calendar
    are skipped without an error and do not become keys, and every other
    entry keeps its value. *)
Theorem partial_overlap `{Math} (checkout_date nights fm : Z)
    (location : string) (v : table) (self : instance) :
  first_morning checkout_date nights = Returns fm ->
  resolve (location_coordinates self) location = Returns v ->
  let in_stay d :=
    checkout_date - (nights - 1) <= d <= checkout_date in
  (exists self',
     DateCollection.set_location checkout_date nights location self
     = (Returns tt, self')
     /\ stdout self' = stdout self
     /\ forall d,
          locations self' !! d
          = if decide (in_stay d /\ d ∈ dom (locations self))
            then Some (Some (Assignment location v None))
            else locations self !! d)
  /\ (forall dist self1,
        DateDistanceCollection._home_distance location self
        = (Returns dist, self1) ->
        exists self',
          DateDistanceCollection.set_location checkout_date nights
            location self
          = (Returns tt, self')
          /\ stdout self' = stdout self
          /\ forall d,
               locations self' !! d
               = if decide (in_stay d /\ d ∈ dom (locations self))
                 then Some (Some (Assignment location v (Some dist)))
                 else locations self !! d).
Proof.
  intros Hfm Hr in_stay.
  pose proof (first_morning_returns _ _ _ Hfm) as ->.
  split.
  - eexists. split.
    { by apply (base_set_location_returns checkout_date nights
                  (checkout_date - (nights - 1)) location v). }
    split; [done|]. intros d. cbn. apply lookup_stamp_stay.
  - intros dist self1 Hd. eexists. split.
    { by apply (distance_set_location_returns checkout_date nights
                  (checkout_date - (nights - 1)) location v dist self
                  self1). }
    split; [done|]. intros d. cbn. apply lookup_stamp_stay.
Qed.

(** A stay from 2023-12-31 to 2024-01-02 on the calendar of the year
    2024. *)
Lemma partial_overlap_witness :
  let v := Coordinates 39.7 (-105.0) in
  let in_stay d := 738887 - (3 - 1) <= d <= 738887 in
  exists self',
    @DateDistanceCollection.set_location small_angle_math 738887 3
      "US/Denver" example_distance_calendar
    = (Returns tt, self')
    /\ stdout self' = stdout example_distance_calendar
    /\ forall d,
         locations self' !! d
         = if decide (in_stay d
                      /\ d ∈ dom (locations example_distance_calendar))
           then Some (Some (Assignment "US/Denver" v
                              (Some example_distance)))
           else locations example_distance_calendar !! d.
Proof.
  pose proof (@partial_overlap small_angle_math 738887 3 738885 "US/Denver"
                (Coordinates 39.7 (-105.0)) example_distance_calendar
                eq_refl eq_refl) as [_ Hdistance].
  apply (Hdistance example_distance
           (called "US/Denver" example_distance_calendar)).
  by vm_compute.
Defined.

Example partial_overlap_2024_03_07 :
  let chicago :=
    Some (Assignment "US/Chicago" (Coordinates 41.9 (-87.6)) None) in
  let m :=
    locations
      (DateCollection.set_location 738954 3 "US/Chicago"
         example_calendar).2 in
  m !! 738952 = None
  /\ m !! 738953 = Some chicago
  /\ m !! 738954 = Some chicago
  /\ m !! 738955 = Some None.
Proof. by vm_compute. Qed.

(** ** Defaults *)

Section Defaults.
Context `{Math}.

Lemma for_each_with_distance_zero (a : assignment)
    (items : list (Z * option assignment)) (self : instance) :
  (forall item, item ∈ items -> item.2 = Some a) ->
  for_each items (fun item =>
    let* v := lift (DateDistanceCollection.with_distance_zero (snd item)) in
    setitem_locations (fst item) v) self
  = (Returns tt,
     set_locations
       (foldl (fun m k =>
                 <[k := Some (Assignment (city a) (coordinates a)
                                (Some 0%float))]> m)
          (locations self) items.*1)
       self).
Proof.
  revert self. induction items as [|[k x] items IH]; intros self Hall.
  - cbn. by rewrite set_locations_same.
  - cbn [for_each]. unfold bind at 1. rewrite bind_lift.
    rewrite (Hall (k, x)) by (apply elem_of_cons; by left).
    cbn [DateDistanceCollection.with_distance_zero].
    unfold setitem_locations, modify. cbn [fst].
    rewrite IH.
    + reflexivity.
    + intros item Hitem. apply Hall. apply elem_of_cons. by right.
Qed.

Lemma elem_of_keys (m : gmap Z (option assignment)) (d : Z) :
  d ∈ (map_to_list m).*1 <-> d ∈ dom m.
Proof.
  rewrite elem_of_dom, list_elem_of_fmap. split.
  - intros [[k x] [-> Hkx]]. apply elem_of_map_to_list in Hkx.
    by exists x.
  - intros [x Hx]. exists (d, x). split; [done|].
    by apply elem_of_map_to_list.
Qed.

Lemma distance_init_returns (json : table) (sy ey : Z) (home : string)
    (v : table) (self : instance) :
  1 <= sy <= 9999 -> 1 <= ey <= 9999 ->
  resolve json home = Returns v ->
  exists m,
    DateDistanceCollection.__init__ json sy ey home self
    = (Returns tt,
       Instance json m v (stdout self) (home_distance_calls self))
    /\ forall d,
         m !! d
         = if decide (_ymd2ord sy 1 1 <= d <= _ymd2ord ey 12 31)
           then Some (Some (Assignment home v (Some 0%float)))
           else None.
Proof.
  intros Hsy Hey Hr.
  set (s := _ymd2ord sy 1 1). set (e := _ymd2ord ey 12 31).
  set (m0 := DateCollection.dict_of_dates
               (Some (Assignment home v None)) (rrule_daily s e)).
  eexists. split.
  - unfold DateDistanceCollection.__init__.
    rewrite bind_lift, date_ymd_january_1 by done.
    rewrite bind_lift, date_ymd_december_31 by done.
    unfold bind at 1.
    rewrite (init_with_default json _ _ home v) by done.
    fold s e m0.
    unfold bind at 1.
    rewrite (coordinates_returns home _ v) by done.
    unfold bind at 1, modify at 1. unfold bind at 1, gets at 1.
    rewrite (for_each_with_distance_zero (Assignment home v None)).
    + reflexivity.
    + intros [k x] Hkx. cbn in Hkx. cbn [snd].
      apply elem_of_map_to_list in Hkx. unfold m0 in Hkx.
      rewrite lookup_dict_of_dates in Hkx.
      case_decide; congruence.
  - intros d. cbn [locations set_home_coordinates city coordinates].
    rewrite lookup_dict_of_dates_from.
    assert (m0 !! d
            = if decide (s <= d <= e)
              then Some (Some (Assignment home v None)) else None)
      as Hm0.
    { unfold m0. rewrite lookup_dict_of_dates.
      repeat case_decide; try done; exfalso;
        rewrite elem_of_rrule_daily in *; tauto. }
    assert (d ∈ (map_to_list m0).*1 <-> s <= d <= e) as Hkeys.
    { rewrite elem_of_keys, elem_of_dom, Hm0.
      case_decide; split; intros Hx; try done;
        first [by eexists | by destruct Hx]. }
    rewrite Hm0.
    repeat case_decide; try done; exfalso; tauto.
Qed.

End Defaults.

(** December 31 is the day before January 1 of the next year, and
    January 1 is the first day after the years before. *)
Lemma december_31_january_1 (year : Z) :
  _ymd2ord year 1 1 = _days_before_year year + 1
  /\ _ymd2ord (year + 1) 1 1 = _ymd2ord year 12 31 + 1.
Proof.
  unfold _ymd2ord, _days_before_month, _days_before_year, _is_leap.
  replace (foldr Z.add 0 (take (Z.to_nat (1 - 1)) _DAYS_IN_MONTH))
    with 0 by reflexivity.
  replace (foldr Z.add 0 (take (Z.to_nat (12 - 1)) _DAYS_IN_MONTH))
    with 334 by reflexivity.
  replace (2 <? 1) with false by reflexivity.
  replace (2 <? 12) with true by reflexivity.
  cbn [andb]. split; [lia|].
  replace (year + 1 - 1) with year by lia.
  destruct (Z.eqb_spec (year mod 4) 0) as [H4|H4];
    destruct (Z.eqb_spec (year mod 100) 0) as [H100|H100];
    destruct (Z.eqb_spec (year mod 400) 0) as [H400|H400];
    cbn [negb orb andb]; Z.div_mod_to_equations; lia.
Qed.

Lemma lookup_dict_of_dates_range (value : option assignment) (s e d : Z) :
  DateCollection.dict_of_dates value (rrule_daily s e) !! d
  = if decide (s <= d <= e) then Some value else None.
Proof.
  rewrite lookup_dict_of_dates.
  repeat case_decide; try done; exfalso;
    rewrite elem_of_rrule_daily in *; tauto.
Qed.

(** C5.  Construction without a default leaves every date of the range
    unset; construction with a default that resolves gives every date
    that place and its coordinates; construction of the distance
    calendar, for years that [date] accepts and a home that resolves,
    covers January 1 of [start_year] to December 31 of [end_year], gives
    every date the home, its coordinates and the distance 0.0, and keeps
    the coordinates of the home. *)
Theorem default_propagation (json : table) (self : instance) :
  (forall s e,
     exists self',
       DateCollection.__init__ json s e None self = (Returns tt, self')
       /\ forall d,
            locations self' !! d
            = if decide (s <= d <= e) then Some None else None)
  /\ (forall s e l v,
        resolve json l = Returns v ->
        exists self',
          DateCollection.__init__ json s e (Some l) self
          = (Returns tt, self')
          /\ forall d,
               locations self' !! d
               = if decide (s <= d <= e)
                 then Some (Some (Assignment l v None)) else None)
  /\ (forall start_year end_year home v,
        1 <= start_year <= 9999 -> 1 <= end_year <= 9999 ->
        resolve json home = Returns v ->
        exists self',
          DateDistanceCollection.__init__ json start_year end_year home self
          = (Returns tt, self')
          /\ home_coordinates self' = v
          /\ forall d,
               locations self' !! d
               = if decide (_ymd2ord start_year 1 1 <= d
                            <= _ymd2ord end_year 12 31)
                 then Some (Some (Assignment home v (Some 0%float)))
                 else None).
Proof.
  split; [|split].
  - intros s e. eexists. split; [apply init_without_default|].
    intros d. apply lookup_dict_of_dates_range.
  - intros s e l v Hr. eexists.
    split; [by apply init_with_default|].
    intros d. apply lookup_dict_of_dates_range.
  - intros sy ey home v Hsy Hey Hr.
    destruct (distance_init_returns json sy ey home v self Hsy Hey Hr)
      as (m & Hinit & Hm).
    eexists. split; [exact Hinit|]. split; [done|]. exact Hm.
Qed.

(** The year 2024, at home in Chicago. *)
Lemma default_propagation_witness :
  exists self',
    DateDistanceCollection.__init__ example_table 2024 2024 "US/Chicago"
      blank
    = (Returns tt, self')
    /\ home_coordinates self' = Coordinates 41.9 (-87.6)
    /\ forall d,
         locations self' !! d
         = if decide (_ymd2ord 2024 1 1 <= d <= _ymd2ord 2024 12 31)
           then Some (Some (Assignment "US/Chicago"
                              (Coordinates 41.9 (-87.6)) (Some 0%float)))
           else None.
Proof.
  pose proof (default_propagation example_table blank)
    as (_ & _ & Hdistance).
  apply Hdistance; [lia | lia | reflexivity].
Defined.

Example year_2024 :
  _ymd2ord 2024 1 1 = 738886 /\ _ymd2ord 2024 12 31 = 739251
  /\ 739251 - 738886 + 1 = 366.
Proof. by vm_compute. Qed.

(** ** The distance *)

(** C6.  For a place that resolves to a pair of coordinates, with the
    coordinates of the home a pair, [_home_distance] returns what the
    reference formula of the specification gives for these two pairs
    (with the same constants R = 3958.7613 and pi / 180), and raises what
    the formula's [math] functions raise. *)
Theorem home_distance_is_haversine `{Math} (location : string)
    (self : instance) (home_lat home_lon lat lon : float) :
  resolve (location_coordinates self) location
    = Returns (Coordinates lat lon) ->
  home_coordinates self = Coordinates home_lat home_lon ->
  DateDistanceCollection._home_distance location self
  = (haversine_reference home_lat home_lon lat lon, called location self).
Proof.
  intros Hr Hhome. unfold DateDistanceCollection._home_distance.
  unfold bind at 1. unfold record_home_distance_call, modify.
  fold (called location self). unfold bind at 1.
  rewrite (coordinates_returns location (called location self)
             (Coordinates lat lon)) by done.
  unfold bind at 1, gets at 1.
  replace (home_coordinates (called location self))
    with (Coordinates home_lat home_lon) by done.
  unfold haversine_reference, sin2, DateDistanceCollection.DEG_TO_RAD,
    DateDistanceCollection.EARTH_MEAN_RADIUS.
  repeat (rewrite bind_lift; cbn [index]).
  unfold and_then.
  repeat (match goal with
          | |- match ?r with Returns _ => _ | Raises _ => _ end = _ =>
              destruct r; [|reflexivity]
          end;
          try rewrite bind_lift).
  reflexivity.
Qed.

Lemma home_distance_is_haversine_witness :
  @DateDistanceCollection._home_distance small_angle_math "US/Denver"
    example_distance_calendar
  = (@haversine_reference small_angle_math 41.9 (-87.6) 39.7 (-105.0),
     called "US/Denver" example_distance_calendar).
Proof.
  apply (@home_distance_is_haversine small_angle_math).
  - reflexivity.
  - reflexivity.
Defined.

Section Once.
Context `{Math}.

Lemma distance_set_location_calls (c n fm : Z) (l : string)
    (self : instance) :
  first_morning c n = Returns fm ->
  home_distance_calls
    (DateDistanceCollection.set_location c n l self).2
  = home_distance_calls self ++ [l].
Proof.
  intros Hfm.
  destruct (home_distance_cases l self)
    as [(v & r & Hr & Hd)|(e & self' & Hd & Hs)].
  - destruct r as [dist|e].
    + by rewrite (distance_set_location_returns c n fm l v dist self
                    (called l self)).
    + unfold DateDistanceCollection.set_location.
      rewrite bind_lift, Hfm. unfold bind. by rewrite Hd.
  - unfold DateDistanceCollection.set_location.
    rewrite bind_lift, Hfm. unfold bind. rewrite Hd.
    by destruct Hs as [->| ->].
Qed.

End Once.

(** C8.  A call of [set_location] on the distance calendar whose first
    morning is a date calls [_home_distance] exactly once, however many
    dates the stay has and however the call ends.  When that one call
    returns [dist], the call of [set_location] returns and every date of
    the stay that is a key of the mapping holds the place, its
    coordinates and that same [dist]. *)
Theorem distance_once_per_call `{Math} (checkout_date nights fm : Z)
    (location : string) (self : instance) :
  first_morning checkout_date nights = Returns fm ->
  home_distance_calls
    (DateDistanceCollection.set_location checkout_date nights location
       self).2
  = home_distance_calls self ++ [location]
  /\ forall dist self1,
       DateDistanceCollection._home_distance location self
       = (Returns dist, self1) ->
       exists v self',
         resolve (location_coordinates self) location = Returns v
         /\ DateDistanceCollection.set_location checkout_date nights
              location self
            = (Returns tt, self')
         /\ forall d,
              checkout_date - (nights - 1) <= d <= checkout_date ->
              d ∈ dom (locations self) ->
              locations self' !! d
              = Some (Some (Assignment location v (Some dist))).
Proof.
  intros Hfm. split; [by apply (distance_set_location_calls _ _ fm)|].
  intros dist self1 Hd.
  destruct (home_distance_returns location dist self self1 Hd)
    as [_ [v Hr]].
  pose proof (first_morning_returns _ _ _ Hfm) as ->.
  exists v. eexists. split; [done|]. split.
  { by apply (distance_set_location_returns checkout_date nights
                (checkout_date - (nights - 1)) location v dist self
                self1). }
  intros d Hstay Hkey. cbn. rewrite lookup_stamp_stay.
  case_decide as Hd'; [done|]. exfalso. by apply Hd'.
Qed.

(** The year 2024 at home in Chicago, then four nights in Denver. *)
Lemma distance_once_per_call_witness :
  home_distance_calls
    (@DateDistanceCollection.set_location small_angle_math 738955 4
       "US/Denver" example_distance_calendar).2
  = home_distance_calls example_distance_calendar ++ ["US/Denver"]
  /\ exists v self',
       resolve (location_coordinates example_distance_calendar)
         "US/Denver" = Returns v
       /\ @DateDistanceCollection.set_location small_angle_math 738955 4
            "US/Denver" example_distance_calendar
          = (Returns tt, self')
       /\ forall d,
            738955 - (4 - 1) <= d <= 738955 ->
            d ∈ dom (locations example_distance_calendar) ->
            locations self' !! d
            = Some (Some (Assignment "US/Denver" v
                            (Some example_distance))).
Proof.
  pose proof (@distance_once_per_call small_angle_math 738955 4 738952
                "US/Denver" example_distance_calendar eq_refl)
    as [Hcalls Hstay].
  split; [exact Hcalls|].
  apply (Hstay example_distance
           (called "US/Denver" example_distance_calendar)).
  by vm_compute.
Defined.

Example four_nights_in_denver :
  let r := @DateDistanceCollection.set_location small_angle_math 738955 4
             "US/Denver" example_distance_calendar in
  r.1 = Returns tt
  /\ home_distance_calls r.2 = ["US/Denver"]
  /\ (city <$> locations r.2 !!! 738951) = Some "US/Chicago"
  /\ (city <$> locations r.2 !!! 738952) = Some "US/Denver"
  /\ (city <$> locations r.2 !!! 738955) = Some "US/Denver"
  /\ (city <$> locations r.2 !!! 738956) = Some "US/Chicago"
  /\ (distance <$> locations r.2 !!! 738952)
     = (distance <$> locations r.2 !!! 738955).
Proof. by vm_compute. Qed.

(** ** Calling twice *)

Section Twice.
Context `{Math}.

Lemma twice_raises (m : M unit) (e : exn) (self self' : instance) :
  m self = (Raises e, self') -> twice m self = m self.
Proof. intros Hm. unfold twice, bind. by rewrite Hm. Qed.

Lemma twice_returns (m : M unit) (self self' : instance) :
  m self = (Returns tt, self') -> twice m self = m self'.
Proof. intros Hm. unfold twice, bind. by rewrite Hm. Qed.

Lemma bind_lift_result {A B : Type} (r : outcome A) (k : A -> M B)
    (s1 s2 : instance) :
  (forall a, (k a s1).1 = (k a s2).1) ->
  (bind (lift r) k s1).1 = (bind (lift r) k s2).1.
Proof. intros Hk. rewrite !bind_lift. destruct r; [apply Hk|done]. Qed.

Lemma bind_result {A B : Type} (m : M A) (k : A -> M B) (r : outcome A)
    (s1 s1' s2 s2' : instance) :
  m s1 = (r, s1') -> m s2 = (r, s2') ->
  (forall a, (k a s1').1 = (k a s2').1) ->
  (bind m k s1).1 = (bind m k s2).1.
Proof.
  intros H1 H2 Hk. unfold bind. rewrite H1, H2.
  destruct r; [apply Hk|done].
Qed.

(** The distance depends on the table and on the home only. *)
Lemma home_distance_result (l : string) (v : table) (s1 s2 : instance) :
  location_coordinates s1 = location_coordinates s2 ->
  home_coordinates s1 = home_coordinates s2 ->
  resolve (location_coordinates s1) l = Returns v ->
  (DateDistanceCollection._home_distance l s1).1
  = (DateDistanceCollection._home_distance l s2).1.
Proof.
  intros Ht Hh Hr. unfold DateDistanceCollection._home_distance.
  apply (bind_result _ _ (Returns tt) s1 (called l s1) s2 (called l s2));
    [done|done|]. intros _.
  apply (bind_result _ _ (Returns v) _ (called l s1) _ (called l s2)).
  { by apply coordinates_returns. }
  { apply coordinates_returns. cbn. by rewrite <- Ht. }
  intros location_coordinates.
  apply (bind_result _ _ (Returns (home_coordinates s1))
           _ (called l s1) _ (called l s2)).
  { done. }
  { unfold gets. cbn. by rewrite Hh. }
  intros home_coordinates.
  repeat (apply bind_lift_result; intros ?).
  reflexivity.
Qed.

Lemma base_set_location_twice (c n : Z) (l : string) (self : instance) :
  twice (DateCollection.set_location c n l) self
  = DateCollection.set_location c n l self.
Proof.
  destruct (first_morning c n) as [fm|e] eqn:Hfm.
  - destruct (coordinates_cases l self)
      as [(v & Hr & _)|(e & self' & Hc & Hs)].
    + pose proof (base_set_location_returns c n fm l v self Hfm Hr)
        as Hfirst.
      rewrite (twice_returns _ _ _ Hfirst), Hfirst.
      rewrite (base_set_location_returns c n fm l v) by done.
      cbn [locations set_locations]. by rewrite stamp_idempotent.
    + pose proof (base_set_location_raises c n fm l e self self' Hfm Hc)
        as Hfirst.
      destruct (any_key (rrule_daily fm c) (locations self)).
      * by apply (twice_raises _ e self self').
      * by apply twice_returns.
  - apply (twice_raises _ e self self).
    unfold DateCollection.set_location. by rewrite bind_lift, Hfm.
Qed.

Lemma distance_set_location_twice (c n : Z) (l : string)
    (self : instance) :
  let once := DateDistanceCollection.set_location c n l self in
  let again := twice (DateDistanceCollection.set_location c n l) self in
  again.1 = once.1
  /\ locations again.2 = locations once.2
  /\ stdout again.2 = stdout once.2.
Proof.
  intros once again. unfold once, again. clear once again.
  assert (forall e self',
            DateDistanceCollection.set_location c n l self
            = (Raises e, self') ->
            twice (DateDistanceCollection.set_location c n l) self
            = DateDistanceCollection.set_location c n l self)
    as Hraises by (intros e self'; apply twice_raises).
  destruct (first_morning c n) as [fm|e] eqn:Hfm.
  - destruct (home_distance_cases l self)
      as [(v & r & Hr & Hd)|(e & self' & Hd & Hs)].
    + destruct r as [dist|e].
      * pose proof (distance_set_location_returns c n fm l v dist self
                      (called l self) Hfm Hr Hd) as Hfirst.
        rewrite (twice_returns _ _ _ Hfirst), Hfirst.
        set (self1 := set_locations _ (called l self)).
        destruct (home_distance_computes l v self1 Hr) as [r Hd1].
        assert (r = Returns dist) as ->.
        { change r
            with (r, called l self1).1.
          rewrite <- Hd1.
          change (Returns dist)
            with (Returns dist, called l self).1.
          rewrite <- Hd.
          by apply (home_distance_result l v). }
        rewrite (distance_set_location_returns c n fm l v dist self1
                   (called l self1) Hfm Hr Hd1).
        cbn [fst snd locations stdout set_locations called self1].
        by rewrite stamp_idempotent.
      * rewrite (Hraises e (called l self)); [done|].
        unfold DateDistanceCollection.set_location.
        rewrite bind_lift, Hfm. unfold bind. by rewrite Hd.
    + rewrite (Hraises e self'); [done|].
      unfold DateDistanceCollection.set_location.
      rewrite bind_lift, Hfm. unfold bind. by rewrite Hd.
  - rewrite (Hraises e self); [done|].
    unfold DateDistanceCollection.set_location.
    by rewrite bind_lift, Hfm.
Qed.

End Twice.

(** C9.  On both classes, for every instance and all arguments, calling
    [set_location] a second time with the same arguments gives the result
    and the mapping of the first call (on the base class the whole
    instance; on the distance class also the same printed text). *)
Theorem set_location_idempotent `{Math} (checkout_date : date) (nights : Z)
    (location : string) (self : instance) :
  twice (DateCollection.set_location checkout_date nights location) self
  = DateCollection.set_location checkout_date nights location self
  /\ (let once :=
        DateDistanceCollection.set_location checkout_date nights location
          self in
      let again :=
        twice (DateDistanceCollection.set_location checkout_date nights
                 location) self in
      again.1 = once.1
      /\ locations again.2 = locations once.2
      /\ stdout again.2 = stdout once.2).
Proof.
  split.
  - apply base_set_location_twice.
  - apply distance_set_location_twice.
Qed.

(** ** Empty ranges *)

Lemma dict_of_dates_empty (value : option assignment) (s e : Z) :
  e < s -> DateCollection.dict_of_dates value (rrule_daily s e) = ∅.
Proof. intros Hlt. by rewrite rrule_daily_empty. Qed.

Lemma first_morning_out_of_range (c n : Z) :
  date_in_range (c - (n - 1)) = false ->
  first_morning c n = Raises OverflowError.
Proof.
  intros Hout. unfold first_morning, timedelta, date_sub.
  destruct ((-999999999 <=? n - 1) && (n - 1 <=? 999999999)); [|done].
  by rewrite Hout.
Qed.

(** C10, as the code has it.  Construction with [end_date] before
    [start_date] (and no default, or one that resolves) returns with an
    empty mapping.  [set_location] with [nights <= 0] and a first morning
    that is a date, which is then after [checkout_date], enumerates no
    date and returns with the instance as it was, on [DateCollection]
    for any place and on [DateDistanceCollection] when the distance of
    the place computes.  When the first morning is past the last date,
    9999-12-31, the call raises [OverflowError], with the instance as it
    was. *)
Theorem empty_range_semantics `{Math} (json : table) (self : instance) :
  (forall s e,
     e < s ->
     exists self',
       DateCollection.__init__ json s e None self = (Returns tt, self')
       /\ locations self' = ∅)
  /\ (forall s e l v,
        e < s -> resolve json l = Returns v ->
        exists self',
          DateCollection.__init__ json s e (Some l) self
          = (Returns tt, self')
          /\ locations self' = ∅)
  /\ (forall c n l fm,
        n <= 0 -> first_morning c n = Returns fm ->
        c < fm
        /\ DateCollection._inclusive_date_range fm c = []
        /\ DateCollection.set_location c n l self = (Returns tt, self))
  /\ (forall c n l fm dist self1,
        n <= 0 -> first_morning c n = Returns fm ->
        DateDistanceCollection._home_distance l self
        = (Returns dist, self1) ->
        DateDistanceCollection.set_location c n l self
        = (Returns tt, called l self))
  /\ (forall c n l,
        n <= 0 -> date_in_range (c - (n - 1)) = false ->
        DateCollection.set_location c n l self
        = (Raises OverflowError, self)
        /\ DateDistanceCollection.set_location c n l self
           = (Raises OverflowError, self)).
Proof.
  split; [|split; [|split; [|split]]].
  - intros s e Hlt. eexists. split; [apply init_without_default|].
    cbn. by apply dict_of_dates_empty.
  - intros s e l v Hlt Hr. eexists.
    split; [by apply init_with_default|].
    cbn. by apply dict_of_dates_empty.
  - intros c n l fm Hn Hfm.
    pose proof (first_morning_returns _ _ _ Hfm) as ->.
    assert (c < c - (n - 1)) as Hlt by lia.
    split; [done|]. split; [by apply rrule_daily_empty|].
    unfold DateCollection.set_location. rewrite bind_lift, Hfm.
    unfold DateCollection._inclusive_date_range.
    by rewrite rrule_daily_empty.
  - intros c n l fm dist self1 Hn Hfm Hd.
    pose proof (first_morning_returns _ _ _ Hfm) as ->.
    destruct (home_distance_returns l dist self self1 Hd) as [-> _].
    unfold DateDistanceCollection.set_location. rewrite bind_lift, Hfm.
    unfold bind. rewrite Hd.
    unfold DateCollection._inclusive_date_range.
    rewrite rrule_daily_empty by lia. reflexivity.
  - intros c n l Hn Hout.
    pose proof (first_morning_out_of_range c n Hout) as Hfm.
    unfold DateCollection.set_location, DateDistanceCollection.set_location.
    by rewrite !bind_lift, Hfm.
Qed.

Lemma empty_range_semantics_witness :
  738956 < 738958
  /\ DateCollection._inclusive_date_range 738958 738956 = []
  /\ DateCollection.set_location 738956 (-1) "US/Boston" example_calendar
     = (Returns tt, example_calendar).
Proof.
  pose proof (@empty_range_semantics small_angle_math example_table
                example_calendar) as (_ & _ & Hnights & _).
  apply (Hnights 738956 (-1) "US/Boston"%string 738958).
  - lia.
  - reflexivity.
Defined.

(** C10 as stated fails: on 9999-12-31 a stay of no night has its first
    morning one day past the last date, and the call raises. *)
Lemma empty_range_counterexample :
  date_ymd 9999 12 31 = Returns 3652059
  /\ 0 <= 0
  /\ DateCollection.set_location 3652059 0 "US/Chicago" example_calendar
     = (Raises OverflowError, example_calendar).
Proof. by vm_compute. Qed.

(** ** Outcomes of a call *)

Lemma first_morning_raises (c n : Z) (e : exn) :
  first_morning c n = Raises e -> e = OverflowError.
Proof.
  unfold first_morning, timedelta, date_sub.
  repeat case_match; congruence.
Qed.

Lemma reduce_getitem_raises (path : list string) (t : table) (e : exn) :
  reduce getitem path t = Raises e -> e = KeyError \/ e = TypeError.
Proof.
  revert t. induction path as [|k path IH]; intros t; cbn; [done|].
  destruct t as [lat lon|children]; cbn.
  - intros [= <-]. by right.
  - destruct (children !! k) as [t'|]; [apply IH|].
    intros [= <-]. by left.
Qed.

Lemma coordinates_outcome (l : string) (self self' : instance)
    (r : outcome table) :
  DateCollection._coordinates l self = (r, self') ->
  match r with
  | Returns v =>
      self' = self /\ resolve (location_coordinates self) l = Returns v
  | Raises e =>
      (e = SystemExit /\ self' = printed (missing_message l) self
       /\ resolve (location_coordinates self) l = Raises KeyError)
      \/ (e = TypeError /\ self' = self
          /\ resolve (location_coordinates self) l = Raises TypeError)
  end.
Proof.
  destruct (resolve (location_coordinates self) l) as [v|e] eqn:Hr.
  - rewrite (coordinates_returns l self v Hr). by intros [= <- <-].
  - destruct (reduce_getitem_raises _ _ _ Hr) as [-> | ->].
    + rewrite (coordinates_missing l self Hr). intros [= <- <-]. by left.
    + rewrite (coordinates_raises l self TypeError Hr) by done.
      intros [= <- <-]. by right.
Qed.

Lemma base_set_location_outcome (c n : Z) (l : string)
    (self self' : instance) (r : outcome unit) :
  DateCollection.set_location c n l self = (r, self') ->
  (first_morning c n = Raises OverflowError
   /\ r = Raises OverflowError /\ self' = self)
  \/ (exists fm,
        first_morning c n = Returns fm
        /\ any_key (rrule_daily fm c) (locations self) = false
        /\ r = Returns tt /\ self' = self)
  \/ (exists fm v,
        first_morning c n = Returns fm
        /\ resolve (location_coordinates self) l = Returns v
        /\ r = Returns tt
        /\ self' = set_locations
                     (stamp (Some (Assignment l v None)) (rrule_daily fm c)
                        (locations self)) self)
  \/ (exists fm,
        first_morning c n = Returns fm
        /\ any_key (rrule_daily fm c) (locations self) = true
        /\ resolve (location_coordinates self) l = Raises KeyError
        /\ r = Raises SystemExit
        /\ self' = printed (missing_message l) self)
  \/ (exists fm,
        first_morning c n = Returns fm
        /\ any_key (rrule_daily fm c) (locations self) = true
        /\ resolve (location_coordinates self) l = Raises TypeError
        /\ r = Raises TypeError /\ self' = self).
Proof.
  destruct (first_morning c n) as [fm|e] eqn:Hfm.
  - destruct (DateCollection._coordinates l self) as [[v|e] s1] eqn:Hc;
      pose proof (coordinates_outcome l self s1 _ Hc) as Hout; cbn in Hout.
    + destruct Hout as [-> Hr].
      rewrite (base_set_location_returns c n fm l v self Hfm Hr).
      intros [= <- <-]. right. right. left. by exists fm, v.
    + rewrite (base_set_location_raises c n fm l e self s1 Hfm Hc).
      destruct (any_key (rrule_daily fm c) (locations self)) eqn:Hk.
      * intros [= <- <-].
        destruct Hout as [(-> & -> & Hr)|(-> & -> & Hr)].
        -- right. right. right. left. by exists fm.
        -- right. right. right. right. by exists fm.
      * intros [= <- <-]. right. left. by exists fm.
  - pose proof (first_morning_raises c n e Hfm) as ->.
    unfold DateCollection.set_location, bind, lift. rewrite Hfm.
    intros [= <- <-]. by left.
Qed.

Section Outcomes.
Context `{Math}.

Lemma distance_set_location_outcome (c n : Z) (l : string)
    (self self' : instance) (r : outcome unit) :
  DateDistanceCollection.set_location c n l self = (r, self') ->
  (first_morning c n = Raises OverflowError
   /\ r = Raises OverflowError /\ self' = self)
  \/ (exists fm v dist,
        first_morning c n = Returns fm
        /\ resolve (location_coordinates self) l = Returns v
        /\ DateDistanceCollection._home_distance l self
           = (Returns dist, called l self)
        /\ r = Returns tt
        /\ self' = set_locations
                     (stamp (Some (Assignment l v (Some dist)))
                        (rrule_daily fm c) (locations self))
                     (called l self))
  \/ (exists fm v e,
        first_morning c n = Returns fm
        /\ resolve (location_coordinates self) l = Returns v
        /\ DateDistanceCollection._home_distance l self
           = (Raises e, called l self)
        /\ r = Raises e /\ self' = called l self)
  \/ (exists fm,
        first_morning c n = Returns fm
        /\ resolve (location_coordinates self) l = Raises KeyError
        /\ r = Raises SystemExit
        /\ self' = printed (missing_message l) (called l self))
  \/ (exists fm,
        first_morning c n = Returns fm
        /\ resolve (location_coordinates self) l = Raises TypeError
        /\ r = Raises TypeError /\ self' = called l self).
Proof.
  destruct (first_morning c n) as [fm|e] eqn:Hfm.
  - destruct (resolve (location_coordinates self) l) as [v|e] eqn:Hr.
    + destruct (home_distance_computes l v self Hr) as [[dist|e] Hd].
      * rewrite (distance_set_location_returns c n fm l v dist self
                   (called l self) Hfm Hr Hd).
        intros [= <- <-]. right. left. by exists fm, v, dist.
      * unfold DateDistanceCollection.set_location.
        rewrite bind_lift, Hfm. unfold bind. rewrite Hd.
        intros [= <- <-]. right. right. left. by exists fm, v, e.
    + unfold DateDistanceCollection.set_location.
      rewrite bind_lift, Hfm. unfold bind at 1.
      unfold DateDistanceCollection._home_distance.
      unfold bind at 1. unfold record_home_distance_call, modify.
      fold (called l self). unfold bind at 1.
      destruct (reduce_getitem_raises _ _ _ Hr) as [-> | ->].
      * rewrite (coordinates_missing l (called l self)) by done.
        intros [= <- <-]. right. right. right. left. by exists fm.
      * rewrite (coordinates_raises l (called l self) TypeError) by done.
        intros [= <- <-]. right. right. right. right. by exists fm.
  - pose proof (first_morning_raises c n e Hfm) as ->.
    unfold DateDistanceCollection.set_location, bind, lift. rewrite Hfm.
    intros [= <- <-]. by left.
Qed.

End Outcomes.

(** ** What a call leaves alone *)

Section Frame.
Context `{Math}.

Lemma base_set_location_failure (c n : Z) (l : string) (e : exn)
    (self self' : instance) :
  DateCollection.set_location c n l self = (Raises e, self') ->
  locations self' = locations self.
Proof.
  intros Hcall.
  destruct (base_set_location_outcome c n l self self' _ Hcall)
    as [(? & ? & ?)|[(fm & ? & ? & ? & ?)|[(fm & v & ? & ? & ? & ?)
       |[(fm & ? & ? & ? & ? & ?)|(fm & ? & ? & ? & ? & ?)]]]];
    by simplify_eq.
Qed.

Lemma distance_set_location_failure (c n : Z) (l : string) (e : exn)
    (self self' : instance) :
  DateDistanceCollection.set_location c n l self = (Raises e, self') ->
  locations self' = locations self.
Proof.
  intros Hcall.
  destruct (distance_set_location_outcome c n l self self' _ Hcall)
    as [(? & ? & ?)|[(fm & v & dist & ? & ? & ? & ? & ?)
       |[(fm & v & e' & ? & ? & ? & ? & ?)
       |[(fm & ? & ? & ? & ?)|(fm & ? & ? & ? & ?)]]]];
    by simplify_eq.
Qed.

Lemma after_call_frame (self : instance) (k : call) :
  location_coordinates (after_call self k) = location_coordinates self
  /\ home_coordinates (after_call self k) = home_coordinates self
  /\ (exists out, stdout (after_call self k) = stdout self ++ out)
  /\ (exists cs,
        home_distance_calls (after_call self k)
        = home_distance_calls self ++ cs).
Proof.
  destruct k as [c n l|c n l]; cbn [after_call].
  - destruct (DateCollection.set_location c n l self) as [r self'] eqn:Hcall.
    cbn [snd].
    destruct (base_set_location_outcome c n l self self' _ Hcall)
      as [(? & ? & ?)|[(fm & ? & ? & ? & ?)|[(fm & v & ? & ? & ? & ?)
         |[(fm & ? & ? & ? & ? & ?)|(fm & ? & ? & ? & ? & ?)]]]];
      simplify_eq; cbn; repeat split; try done;
      first [by exists []; rewrite app_nil_r | by eexists].
  - destruct (DateDistanceCollection.set_location c n l self)
      as [r self'] eqn:Hcall.
    cbn [snd].
    destruct (distance_set_location_outcome c n l self self' _ Hcall)
      as [(? & ? & ?)|[(fm & v & dist & ? & ? & ? & ? & ?)
         |[(fm & v & e' & ? & ? & ? & ? & ?)
         |[(fm & ? & ? & ? & ?)|(fm & ? & ? & ? & ?)]]]];
      simplify_eq; cbn; repeat split; try done;
      first [by exists []; rewrite app_nil_r | by eexists].
Qed.

Lemma after_calls_frame (self : instance) (ks : list call) :
  location_coordinates (after_calls self ks) = location_coordinates self
  /\ home_coordinates (after_calls self ks) = home_coordinates self
  /\ (exists out, stdout (after_calls self ks) = stdout self ++ out)
  /\ (exists cs,
        home_distance_calls (after_calls self ks)
        = home_distance_calls self ++ cs).
Proof.
  revert self. induction ks as [|k ks IH]; intros self.
  - cbn. repeat split; try done; exists []; by rewrite app_nil_r.
  - cbn [after_calls foldl]. fold (after_calls (after_call self k) ks).
    destruct (IH (after_call self k))
      as (Ht & Hh & [out Hout] & [cs Hcs]).
    destruct (after_call_frame self k)
      as (Ht1 & Hh1 & [out1 Hout1] & [cs1 Hcs1]).
    rewrite Ht, Hh, Hout, Hcs, Ht1, Hh1, Hout1, Hcs1.
    repeat split; try done.
    + exists (out1 ++ out). by rewrite app_assoc.
    + exists (cs1 ++ cs). by rewrite app_assoc.
Qed.

End Frame.

(** X1.  A call of [set_location] that raises, on either class and
    whatever it raises, has written no entry of the mapping. *)
Theorem set_location_failure_atomic `{Math} (checkout_date : date)
    (nights : Z) (location : string) (self : instance) :
  (forall e self',
     DateCollection.set_location checkout_date nights location self
     = (Raises e, self') ->
     locations self' = locations self)
  /\ (forall e self',
        DateDistanceCollection.set_location checkout_date nights location
          self
        = (Raises e, self') ->
        locations self' = locations self).
Proof.
  split; intros e self' Hcall.
  - by apply (base_set_location_failure checkout_date nights location e).
  - by apply (distance_set_location_failure checkout_date nights location
                e).
Qed.

(** A stay of three nights in a place that the table does not have, on a
    calendar whose three dates are the stay. *)
Lemma set_location_failure_atomic_witness :
  locations
    (DateCollection.set_location 738955 3 "US/Boston" example_calendar).2
  = locations example_calendar.
Proof.
  pose proof (@set_location_failure_atomic small_angle_math 738955 3
                "US/Boston" example_calendar) as [Hbase _].
  apply (Hbase SystemExit). by vm_compute.
Defined.

(** X2.  What a call of [set_location] prints.  On [DateCollection] the
    output grows by the three lines of the missing-place message exactly
    when the call raises [SystemExit], and by nothing otherwise.  On
    [DateDistanceCollection] a call that returns has printed nothing, and
    a call that raises has printed nothing or, raising [SystemExit], that
    message. *)
Theorem set_location_output `{Math} (checkout_date : date) (nights : Z)
    (location : string) (self : instance) :
  (let res :=
     DateCollection.set_location checkout_date nights location self in
   stdout res.2
   = stdout self
     ++ match res.1 with
        | Raises SystemExit => missing_message location
        | _ => []
        end)
  /\ (let res :=
        DateDistanceCollection.set_location checkout_date nights location
          self in
      match res.1 with
      | Returns _ => stdout res.2 = stdout self
      | Raises e =>
          stdout res.2 = stdout self
          \/ (e = SystemExit
              /\ stdout res.2 = stdout self ++ missing_message location)
      end).
Proof.
  split.
  - destruct (DateCollection.set_location checkout_date nights location
                self) as [r self'] eqn:Hcall.
    cbn [fst snd].
    destruct (base_set_location_outcome _ _ _ _ _ _ Hcall)
      as [(? & ? & ?)|[(fm & ? & ? & ? & ?)|[(fm & v & ? & ? & ? & ?)
         |[(fm & ? & ? & ? & ? & ?)|(fm & ? & ? & ? & ? & ?)]]]];
      simplify_eq; cbn; by rewrite ?app_nil_r.
  - destruct (DateDistanceCollection.set_location checkout_date nights
                location self) as [r self'] eqn:Hcall.
    cbn [fst snd].
    destruct (distance_set_location_outcome _ _ _ _ _ _ Hcall)
      as [(? & ? & ?)|[(fm & v & dist & ? & ? & ? & ? & ?)
         |[(fm & v & e' & ? & ? & ? & ? & ?)
         |[(fm & ? & ? & ? & ?)|(fm & ? & ? & ? & ?)]]]];
      simplify_eq; cbn; try done; try (by left). by right.
Qed.

(** X3.  [_coordinates] raises nothing but [SystemExit] and [TypeError],
    and [set_location] of [DateCollection] nothing but these two and
    [OverflowError]: the [KeyError] of a dictionary never leaves them. *)
Theorem set_location_exceptions (checkout_date : date) (nights : Z)
    (location : string) (self : instance) :
  match (DateCollection._coordinates location self).1 with
  | Raises e => e = SystemExit \/ e = TypeError
  | Returns _ => True
  end
  /\ match (DateCollection.set_location checkout_date nights location
              self).1 with
     | Raises e => e = OverflowError \/ e = SystemExit \/ e = TypeError
     | Returns _ => True
     end.
Proof.
  split.
  - destruct (DateCollection._coordinates location self)
      as [[v|e] self'] eqn:Hc; [done|].
    cbn [fst].
    destruct (coordinates_outcome _ _ _ _ Hc) as [(-> & _)|(-> & _)];
      [by left | by right].
  - destruct (DateCollection.set_location checkout_date nights location
                self) as [r self'] eqn:Hcall.
    cbn [fst].
    destruct (base_set_location_outcome _ _ _ _ _ _ Hcall)
      as [(? & ? & ?)|[(fm & ? & ? & ? & ?)|[(fm & v & ? & ? & ? & ?)
         |[(fm & ? & ? & ? & ? & ?)|(fm & ? & ? & ? & ? & ?)]]]];
      simplify_eq; try done; [by left | by right; left | by right; right].
Qed.

(** X4.  No sequence of [set_location] calls, on either class and
    however each call ends, changes the reference table or the
    coordinates of the home; what was printed before stays printed. *)
Theorem attributes_read_only `{Math} (self : instance) (ks : list call) :
  location_coordinates (after_calls self ks) = location_coordinates self
  /\ home_coordinates (after_calls self ks) = home_coordinates self
  /\ exists out, stdout (after_calls self ks) = stdout self ++ out.
Proof.
  destruct (after_calls_frame self ks) as (Ht & Hh & Hout & _).
  done.
Qed.

(** ** Paths *)

Lemma split_cons (sep : ascii) (s : string) :
  exists w ws, split sep s = w :: ws.
Proof.
  induction s as [|c s IH]; cbn [split]; [by eexists _, _|].
  destruct (Ascii.eqb c sep); [by eexists _, _|].
  destruct IH as (w & ws & ->). by eexists _, _.
Qed.

Lemma split_append (sep : ascii) (p q : string) :
  split sep (p +:+ String sep q) = split sep p ++ split sep q.
Proof.
  induction p as [|c p IH].
  - change ("" +:+ String sep q) with (String sep q).
    cbn [split app]. by rewrite Ascii.eqb_refl.
  - change (String c p +:+ String sep q)
      with (String c (p +:+ String sep q)).
    cbn [split]. rewrite IH.
    destruct (Ascii.eqb c sep); [done|].
    by destruct (split_cons sep p) as (w & ws & ->).
Qed.

Lemma reduce_app {A B : Type} (f : A -> B -> outcome A) (l1 l2 : list B)
    (a : A) :
  reduce f (l1 ++ l2) a = and_then (reduce f l1 a) (reduce f l2).
Proof.
  revert a. induction l1 as [|x l1 IH]; intros a; cbn; [done|].
  destruct (f a x); [apply IH|done].
Qed.

Lemma resolve_append (t : table) (p q : string) :
  resolve t (p +:+ "/" +:+ q)
  = and_then (resolve t p) (fun t' => resolve t' q).
Proof.
  unfold resolve.
  change (p +:+ "/" +:+ q) with (p +:+ String "/" q).
  by rewrite split_append, reduce_app.
Qed.

Lemma resolve_from_pair (lat lon : float) (q : string) :
  resolve (Coordinates lat lon) q = Raises TypeError.
Proof.
  unfold resolve. by destruct (split_cons "/" q) as (w & ws & ->).
Qed.

Lemma resolve_from_empty (q : string) :
  resolve (Places ∅) q = Raises KeyError.
Proof.
  unfold resolve. destruct (split_cons "/" q) as (w & ws & ->).
  cbn. by rewrite lookup_empty.
Qed.

Lemma coordinates_result (l : string) (self : instance) :
  (DateCollection._coordinates l self).1
  = match resolve (location_coordinates self) l with
    | Returns v => Returns v
    | Raises KeyError => Raises SystemExit
    | Raises e => Raises e
    end.
Proof.
  destruct (resolve (location_coordinates self) l) as [v|e] eqn:Hr.
  - by rewrite (coordinates_returns l self v Hr).
  - destruct (reduce_getitem_raises _ _ _ Hr) as [-> | ->].
    + by rewrite (coordinates_missing l self Hr).
    + by rewrite (coordinates_raises l self TypeError Hr).
Qed.

Lemma coordinates_returned (l : string) (v : table)
    (self self' : instance) :
  DateCollection._coordinates l self = (Returns v, self') ->
  resolve (location_coordinates self) l = Returns v.
Proof.
  intros Hc. by destruct (coordinates_outcome l self self' _ Hc).
Qed.

(** X5.  A place that goes on after a segment path which already
    resolves to a pair of coordinates: the list raises [TypeError], which
    [_coordinates] does not catch, so nothing is printed.  [set_location]
    of [DateDistanceCollection] raises it, and [set_location] of
    [DateCollection] does when some date of the stay is a key. *)
Theorem walk_past_pair_type_error `{Math} (p q : string) (lat lon : float)
    (self : instance) :
  DateCollection._coordinates p self = (Returns (Coordinates lat lon), self)
  ->
  let l := p +:+ "/" +:+ q in
  DateCollection._coordinates l self = (Raises TypeError, self)
  /\ (forall c n fm,
        first_morning c n = Returns fm ->
        DateCollection.set_location c n l self
        = if any_key (rrule_daily fm c) (locations self)
          then (Raises TypeError, self) else (Returns tt, self))
  /\ (forall c n fm,
        first_morning c n = Returns fm ->
        DateDistanceCollection.set_location c n l self
        = (Raises TypeError, called l self)).
Proof.
  intros Hp l. apply coordinates_returned in Hp.
  assert (resolve (location_coordinates self) l = Raises TypeError) as Hr.
  { unfold l. rewrite resolve_append, Hp. apply resolve_from_pair. }
  assert (DateCollection._coordinates l self = (Raises TypeError, self))
    as Hc by (by apply coordinates_raises).
  split; [done|]. split.
  - intros c n fm Hfm. by apply base_set_location_raises.
  - intros c n fm Hfm.
    unfold DateDistanceCollection.set_location.
    rewrite bind_lift, Hfm. unfold bind at 1.
    unfold DateDistanceCollection._home_distance.
    unfold bind at 1. unfold record_home_distance_call, modify.
    fold (called l self). unfold bind at 1.
    by rewrite (coordinates_raises l (called l self) TypeError).
Qed.

Lemma walk_past_pair_type_error_witness :
  DateCollection._coordinates "US/Chicago/Loop" example_calendar
  = (Raises TypeError, example_calendar)
  /\ DateCollection.set_location 738955 3 "US/Chicago/Loop"
       example_calendar
     = (Raises TypeError, example_calendar).
Proof.
  pose proof (@walk_past_pair_type_error small_angle_math "US/Chicago"
                "Loop" 41.9 (-87.6) example_calendar eq_refl)
    as (Hc & Hbase & _).
  split; [exact Hc|]. exact (Hbase 738955 3 738953 eq_refl).
Defined.

(** X6.  Looking up [p/q] is looking up [q] in the table that [p]
    resolves to: same value, or same exception. *)
Theorem lookup_composes (p q : string) (t : table) (self : instance) :
  DateCollection._coordinates p self = (Returns t, self) ->
  (DateCollection._coordinates (p +:+ "/" +:+ q) self).1
  = (DateCollection._coordinates q (set_location_coordinates t self)).1.
Proof.
  intros Hp. apply coordinates_returned in Hp.
  rewrite !coordinates_result, resolve_append, Hp. reflexivity.
Qed.

Lemma lookup_composes_witness :
  (DateCollection._coordinates "US/Denver" example_calendar).1
  = (DateCollection._coordinates "Denver"
       (set_location_coordinates
          (Places {[ "Chicago"%string := Coordinates 41.9 (-87.6);
                     "Denver"%string := Coordinates 39.7 (-105.0) ]})
          example_calendar)).1.
Proof.
  apply (lookup_composes "US" "Denver"). by vm_compute.
Defined.

(** X7.  With an empty reference table every lookup exits with the
    missing-place message, whatever the place, so no calendar with a
    default and no distance calendar can be constructed; a calendar
    without default is constructed as usual. *)
Theorem empty_table_exits (self : instance) :
  (forall l,
     location_coordinates self = Places ∅ ->
     DateCollection._coordinates l self
     = (Raises SystemExit, printed (missing_message l) self))
  /\ (forall s e l,
        DateCollection.__init__ (Places ∅) s e (Some l) self
        = (Raises SystemExit,
           printed (missing_message l)
             (set_location_coordinates (Places ∅) self)))
  /\ (forall sy ey home,
        1 <= sy <= 9999 -> 1 <= ey <= 9999 ->
        DateDistanceCollection.__init__ (Places ∅) sy ey home self
        = (Raises SystemExit,
           printed (missing_message home)
             (set_location_coordinates (Places ∅) self)))
  /\ (forall s e,
        (DateCollection.__init__ (Places ∅) s e None self).1 = Returns tt).
Proof.
  split; [|split; [|split]].
  - intros l Ht. apply coordinates_missing. rewrite Ht.
    apply resolve_from_empty.
  - intros s e l. apply init_missing, resolve_from_empty.
  - intros sy ey home Hsy Hey.
    by apply distance_init_missing; [| |apply resolve_from_empty].
  - done.
Qed.

Lemma empty_table_exits_witness :
  DateCollection._coordinates "US/Chicago" blank
  = (Raises SystemExit, printed (missing_message "US/Chicago") blank)
  /\ DateDistanceCollection.__init__ (Places ∅) 2024 2024 "US/Chicago"
       blank
     = (Raises SystemExit,
        printed (missing_message "US/Chicago")
          (set_location_coordinates (Places ∅) blank)).
Proof.
  pose proof (empty_table_exits blank) as (Hc & _ & Hd & _).
  split; [by apply Hc|]. apply Hd; lia.
Defined.

(** ** A region where a place is expected *)

Section Region.
Context `{Math}.

Lemma home_distance_region (l : string) (v : table) (self : instance) :
  resolve (location_coordinates self) l = Returns v ->
  (exists d, home_coordinates self = Places d) \/ (exists d, v = Places d)
  ->
  DateDistanceCollection._home_distance l self
  = (Raises KeyError, called l self).
Proof.
  intros Hr Hregion. unfold DateDistanceCollection._home_distance.
  unfold bind at 1. unfold record_home_distance_call, modify.
  fold (called l self). unfold bind at 1.
  rewrite (coordinates_returns l (called l self) v) by done.
  unfold bind at 1, gets at 1.
  replace (home_coordinates (called l self)) with (home_coordinates self)
    by done.
  rewrite bind_lift.
  destruct (home_coordinates self) as [hlat hlon|hd] eqn:Hh; [|done].
  cbn [index]. rewrite bind_lift.
  destruct Hregion as [[d Hd]|[d ->]]; [done|]. done.
Qed.

Lemma distance_set_location_region (c n fm : Z) (l : string) (v : table)
    (self : instance) :
  first_morning c n = Returns fm ->
  resolve (location_coordinates self) l = Returns v ->
  (exists d, home_coordinates self = Places d) \/ (exists d, v = Places d)
  ->
  DateDistanceCollection.set_location c n l self
  = (Raises KeyError, called l self).
Proof.
  intros Hfm Hr Hregion. unfold DateDistanceCollection.set_location.
  rewrite bind_lift, Hfm. unfold bind.
  by rewrite (home_distance_region l v self Hr Hregion).
Qed.

End Region.

(** X8.  A place that resolves to a dictionary of the table (a region,
    not a pair of coordinates) is accepted by [set_location] of
    [DateCollection], which stores the dictionary as the coordinates of
    the dates of the stay, and makes [set_location] of
    [DateDistanceCollection] raise [KeyError] with no entry written. *)
Theorem region_as_destination `{Math} (c n fm : Z) (l : string)
    (d : gmap string table) (self : instance) :
  first_morning c n = Returns fm ->
  DateCollection._coordinates l self = (Returns (Places d), self) ->
  (exists self',
     DateCollection.set_location c n l self = (Returns tt, self')
     /\ forall day,
          locations self' !! day
          = if decide (c - (n - 1) <= day <= c
                       /\ day ∈ dom (locations self))
            then Some (Some (Assignment l (Places d) None))
            else locations self !! day)
  /\ DateDistanceCollection.set_location c n l self
     = (Raises KeyError, called l self).
Proof.
  intros Hfm Hc. apply coordinates_returned in Hc.
  pose proof (first_morning_returns _ _ _ Hfm) as ->.
  split.
  - eexists. split.
    { by apply (base_set_location_returns c n (c - (n - 1)) l (Places d)). }
    intros day. cbn. apply lookup_stamp_stay.
  - apply (distance_set_location_region c n (c - (n - 1)) l (Places d));
      [done|done|]. right. by exists d.
Qed.

Lemma region_as_destination_witness :
  @DateDistanceCollection.set_location small_angle_math 738955 3 "US"
    example_distance_calendar
  = (Raises KeyError, called "US" example_distance_calendar).
Proof.
  pose proof (@region_as_destination small_angle_math 738955 3 738953 "US"
                {[ "Chicago"%string := Coordinates 41.9 (-87.6);
                   "Denver"%string := Coordinates 39.7 (-105.0) ]}
                example_distance_calendar eq_refl) as Hregion.
  apply Hregion. by vm_compute.
Defined.

(** X9.  A distance calendar can be constructed with a home that resolves
    to a dictionary of the table: construction returns and every date
    holds that dictionary with the distance 0.0.  After that every
    [set_location] whose first morning is a date and whose place resolves
    raises [KeyError], with no entry written. *)
Theorem region_as_home `{Math} (json : table) (sy ey : Z) (home : string)
    (d : gmap string table) (self : instance) :
  1 <= sy <= 9999 -> 1 <= ey <= 9999 ->
  resolve json home = Returns (Places d) ->
  exists self',
    DateDistanceCollection.__init__ json sy ey home self
    = (Returns tt, self')
    /\ home_coordinates self' = Places d
    /\ forall c n fm l v,
         first_morning c n = Returns fm ->
         resolve json l = Returns v ->
         DateDistanceCollection.set_location c n l self'
         = (Raises KeyError, called l self').
Proof.
  intros Hsy Hey Hr.
  destruct (distance_init_returns json sy ey home (Places d) self Hsy Hey
              Hr) as (m & Hinit & _).
  eexists. split; [exact Hinit|]. split; [done|].
  intros c n fm l v Hfm Hl.
  apply (distance_set_location_region c n fm l v); [done|done|].
  left. by exists d.
Qed.

Lemma region_as_home_witness :
  exists self',
    DateDistanceCollection.__init__ example_table 2024 2024 "US" blank
    = (Returns tt, self')
    /\ @DateDistanceCollection.set_location small_angle_math 738955 3
         "US/Denver" self'
       = (Raises KeyError, called "US/Denver" self').
Proof.
  destruct (@region_as_home small_angle_math example_table 2024 2024 "US"
              {[ "Chicago"%string := Coordinates 41.9 (-87.6);
                 "Denver"%string := Coordinates 39.7 (-105.0) ]}
              blank) as (self' & Hinit & _ & Hcalls);
    [lia | lia | by vm_compute |].
  exists self'. split; [exact Hinit|].
  by apply (Hcalls 738955 3 738953 "US/Denver"%string
              (Coordinates 39.7 (-105.0))).
Defined.

(** ** One call after another *)

Lemma lookup_stamp_twice (new1 new2 : option assignment) (c1 n1 c2 n2 : Z)
    (m : gmap Z (option assignment)) (d : Z) :
  stamp new2 (rrule_daily (c2 - (n2 - 1)) c2)
    (stamp new1 (rrule_daily (c1 - (n1 - 1)) c1) m) !! d
  = if decide (c2 - (n2 - 1) <= d <= c2 /\ d ∈ dom m) then Some new2
    else if decide (c1 - (n1 - 1) <= d <= c1 /\ d ∈ dom m) then Some new1
    else m !! d.
Proof.
  rewrite lookup_stamp_stay, dom_stamp, lookup_stamp_stay. done.
Qed.


Section Sequence.
Context `{Math}.

Lemma base_then (c1 n1 c2 n2 : Z) (l1 l2 : string) (v1 v2 : table)
    (self : instance) :
  first_morning c1 n1 = Returns (c1 - (n1 - 1)) ->
  first_morning c2 n2 = Returns (c2 - (n2 - 1)) ->
  resolve (location_coordinates self) l1 = Returns v1 ->
  resolve (location_coordinates self) l2 = Returns v2 ->
  (do DateCollection.set_location c1 n1 l1
   then DateCollection.set_location c2 n2 l2) self
  = (Returns tt,
     set_locations
       (stamp (Some (Assignment l2 v2 None)) (rrule_daily (c2 - (n2 - 1)) c2)
          (stamp (Some (Assignment l1 v1 None))
             (rrule_daily (c1 - (n1 - 1)) c1) (locations self)))
       self).
Proof.
  intros Hfm1 Hfm2 Hr1 Hr2. unfold bind.
  rewrite (base_set_location_returns c1 n1 _ l1 v1 self Hfm1 Hr1).
  by rewrite (base_set_location_returns c2 n2 _ l2 v2 _ Hfm2).
Qed.

Lemma distance_then (c1 n1 c2 n2 : Z) (l1 l2 : string) (v1 v2 : table)
    (d1 d2 : float) (self s1 s2 : instance) :
  first_morning c1 n1 = Returns (c1 - (n1 - 1)) ->
  first_morning c2 n2 = Returns (c2 - (n2 - 1)) ->
  resolve (location_coordinates self) l1 = Returns v1 ->
  resolve (location_coordinates self) l2 = Returns v2 ->
  DateDistanceCollection._home_distance l1 self = (Returns d1, s1) ->
  DateDistanceCollection._home_distance l2 self = (Returns d2, s2) ->
  (do DateDistanceCollection.set_location c1 n1 l1
   then DateDistanceCollection.set_location c2 n2 l2) self
  = (Returns tt,
     set_locations
       (stamp (Some (Assignment l2 v2 (Some d2)))
          (rrule_daily (c2 - (n2 - 1)) c2)
          (stamp (Some (Assignment l1 v1 (Some d1)))
             (rrule_daily (c1 - (n1 - 1)) c1) (locations self)))
       (called l2 (called l1 self))).
Proof.
  intros Hfm1 Hfm2 Hr1 Hr2 Hd1 Hd2. unfold bind.
  rewrite (distance_set_location_returns c1 n1 _ l1 v1 d1 self s1 Hfm1 Hr1
             Hd1).
  set (self1 := set_locations _ (called l1 self)).
  destruct (home_distance_computes l2 v2 self1 Hr2) as [r Hd].
  assert (r = Returns d2) as ->.
  { change r with (r, called l2 self1).1. rewrite <- Hd.
    change (Returns d2) with (Returns d2, s2).1. rewrite <- Hd2.
    by apply (home_distance_result l2 v2). }
  by rewrite (distance_set_location_returns c2 n2 _ l2 v2 d2 self1
                (called l2 self1) Hfm2 Hr2 Hd).
Qed.

End Sequence.

(** X10.  Two calls of [set_location] in a row, both with a first morning
    that is a date and a place that resolves (and, on the distance
    calendar, a distance that computes): a key in the second stay holds
    the second place, a key in the first stay only holds the first place,
    and every other entry is as before.  The later call wins on the
    overlap. *)
Theorem last_write_wins `{Math} (c1 n1 c2 n2 : Z) (l1 l2 : string)
    (v1 v2 : table) (self : instance) :
  first_morning c1 n1 = Returns (c1 - (n1 - 1)) ->
  first_morning c2 n2 = Returns (c2 - (n2 - 1)) ->
  DateCollection._coordinates l1 self = (Returns v1, self) ->
  DateCollection._coordinates l2 self = (Returns v2, self) ->
  let first d := c1 - (n1 - 1) <= d <= c1 /\ d ∈ dom (locations self) in
  let second d := c2 - (n2 - 1) <= d <= c2 /\ d ∈ dom (locations self) in
  (exists self',
     (do DateCollection.set_location c1 n1 l1
      then DateCollection.set_location c2 n2 l2) self
     = (Returns tt, self')
     /\ forall d,
          locations self' !! d
          = if decide (second d) then Some (Some (Assignment l2 v2 None))
            else if decide (first d)
                 then Some (Some (Assignment l1 v1 None))
                 else locations self !! d)
  /\ (forall d1 d2 s1 s2,
        DateDistanceCollection._home_distance l1 self = (Returns d1, s1) ->
        DateDistanceCollection._home_distance l2 self = (Returns d2, s2) ->
        exists self',
          (do DateDistanceCollection.set_location c1 n1 l1
           then DateDistanceCollection.set_location c2 n2 l2) self
          = (Returns tt, self')
          /\ forall d,
               locations self' !! d
               = if decide (second d)
                 then Some (Some (Assignment l2 v2 (Some d2)))
                 else if decide (first d)
                      then Some (Some (Assignment l1 v1 (Some d1)))
                      else locations self !! d).
Proof.
  intros Hfm1 Hfm2 Hc1 Hc2 first second.
  apply coordinates_returned in Hc1, Hc2. split.
  - eexists. split; [by apply (base_then c1 n1 c2 n2 l1 l2 v1 v2)|].
    intros d. cbn. apply lookup_stamp_twice.
  - intros d1 d2 s1 s2 Hd1 Hd2. eexists. split.
    { by apply (distance_then c1 n1 c2 n2 l1 l2 v1 v2 d1 d2 self s1 s2). }
    intros d. cbn. apply lookup_stamp_twice.
Qed.

(** 2024-03-05 to 2024-03-10 in Denver, then 2024-03-09 to 2024-03-12 in
    Chicago: the 9th and the 10th end in Chicago. *)
Lemma last_write_wins_witness :
  let v1 := Coordinates 39.7 (-105.0) in
  let v2 := Coordinates 41.9 (-87.6) in
  let first d :=
    738955 - (6 - 1) <= d <= 738955
    /\ d ∈ dom (locations example_distance_calendar) in
  let second d :=
    738957 - (4 - 1) <= d <= 738957
    /\ d ∈ dom (locations example_distance_calendar) in
  exists self',
    (do @DateDistanceCollection.set_location small_angle_math 738955 6
          "US/Denver"
     then @DateDistanceCollection.set_location small_angle_math 738957 4
            "US/Chicago") example_distance_calendar
    = (Returns tt, self')
    /\ forall d,
         locations self' !! d
         = if decide (second d)
           then Some (Some (Assignment "US/Chicago" v2
                              (Some (example_distance_to "US/Chicago"))))
           else if decide (first d)
                then Some (Some (Assignment "US/Denver" v1
                                   (Some (example_distance_to "US/Denver"))))
                else locations example_distance_calendar !! d.
Proof.
  pose proof (@last_write_wins small_angle_math 738955 6 738957 4
                "US/Denver" "US/Chicago" (Coordinates 39.7 (-105.0))
                (Coordinates 41.9 (-87.6)) example_distance_calendar
                eq_refl eq_refl) as Hwins.
  destruct Hwins as [_ Hdistance]; [by vm_compute | by vm_compute |].
  apply (Hdistance (example_distance_to "US/Denver")
           (example_distance_to "US/Chicago")
           (called "US/Denver" example_distance_calendar)
           (called "US/Chicago" example_distance_calendar));
    by vm_compute.
Defined.



(** ** Construction, read backwards *)

Lemma date_ymd_returned (year month day : Z) (d : Z) :
  date_ymd year month day = Returns d ->
  1 <= year <= 9999 /\ d = _ymd2ord year month day.
Proof.
  unfold date_ymd, MINYEAR, MAXYEAR.
  destruct (negb _); [done|].
  destruct (1 <=? year) eqn:H1; [|done].
  destruct (year <=? 9999) eqn:H2; [|done].
  cbn [andb]. case_match; [|done]. intros [= <-]. lia.
Qed.

Lemma date_ymd_year_error (year month day : Z) (e : exn) :
  fits_int month = true -> fits_int day = true ->
  year_error year = Some e ->
  date_ymd year month day = Raises e.
Proof.
  intros Hm Hd. unfold year_error, date_ymd, MINYEAR, MAXYEAR.
  rewrite Hm, Hd, !andb_true_r.
  destruct (fits_int year); cbn [negb]; [|by intros [= <-]].
  destruct (1 <=? year) eqn:H1; cbn [andb]; [|by intros [= <-]].
  destruct (year <=? 9999) eqn:H2; cbn [andb]; [done|].
  by intros [= <-].
Qed.

Lemma year_error_none (year : Z) :
  year_error year = None <-> 1 <= year <= 9999.
Proof.
  unfold year_error, fits_int, INT_MIN, INT_MAX. split.
  - repeat case_match; try done. intros _.
    repeat match goal with
           | Hb : _ && _ = true |- _ => apply andb_true_iff in Hb as [? ?]
           end.
    lia.
  - intros Hyear.
    replace ((-2147483648 <=? year) && (year <=? 2147483647)) with true
      by (symmetry; apply andb_true_iff; lia).
    by replace ((1 <=? year) && (year <=? 9999)) with true
      by (symmetry; apply andb_true_iff; lia).
Qed.

Lemma init_returned (json : table) (s e : date) (default : option string)
    (self self' : instance) :
  DateCollection.__init__ json s e default self = (Returns tt, self') ->
  exists value,
    self' = Instance json
              (DateCollection.dict_of_dates value (rrule_daily s e))
              (home_coordinates self) (stdout self)
              (home_distance_calls self)
    /\ (value = None
        \/ exists l v, default = Some l /\ resolve json l = Returns v
                       /\ value = Some (Assignment l v None)).
Proof.
  intros Hinit. destruct default as [l|].
  - destruct (resolve json l) as [v|x] eqn:Hr.
    + rewrite (init_with_default json s e l v) in Hinit by done.
      injection Hinit as <-. eexists. split; [done|]. right. by exists l, v.
    + destruct (init_default_raises json s e l x self Hr)
        as (x' & s' & Hx & _).
      congruence.
  - rewrite init_without_default in Hinit.
    injection Hinit as <-. eexists. split; [done|]. by left.
Qed.

Lemma distance_init_returned (json : table) (sy ey : Z) (home : string)
    (self self' : instance) :
  DateDistanceCollection.__init__ json sy ey home self = (Returns tt, self') ->
  1 <= sy <= 9999 /\ 1 <= ey <= 9999
  /\ exists v, resolve json home = Returns v.
Proof.
  unfold DateDistanceCollection.__init__.
  rewrite bind_lift.
  destruct (date_ymd sy 1 1) as [s|x] eqn:Hs; [|done].
  rewrite bind_lift.
  destruct (date_ymd ey 12 31) as [e|x] eqn:He; [|done].
  apply date_ymd_returned in Hs as [Hsy _], He as [Hey _].
  destruct (resolve json home) as [v|x] eqn:Hr.
  - intros _. split; [done|]. split; [done|]. by exists v.
  - destruct (init_default_raises json s e home x self Hr)
      as (x' & s' & Hx & _).
    unfold bind at 1. by rewrite Hx.
Qed.

Lemma distance_init_year_error (json : table) (sy ey : Z) (home : string)
    (e : exn) (self : instance) :
  year_error sy = Some e
  \/ (year_error sy = None /\ year_error ey = Some e) ->
  DateDistanceCollection.__init__ json sy ey home self = (Raises e, self).
Proof.
  unfold DateDistanceCollection.__init__. rewrite bind_lift.
  intros [Hsy|[Hsy Hey]].
  - by rewrite (date_ymd_year_error sy 1 1 e).
  - apply year_error_none in Hsy.
    rewrite date_ymd_january_1 by done.
    by rewrite bind_lift, (date_ymd_year_error ey 12 31 e).
Qed.

(** ** Invariants of the mapping *)

Lemma stamp_consistent (l : string) (v : table) (dist : option float)
    (dates : list date) (self : instance) :
  resolve (location_coordinates self) l = Returns v ->
  consistent self ->
  consistent
    (set_locations (stamp (Some (Assignment l v dist)) dates (locations self))
       self).
Proof.
  intros Hr Hself d a. cbn. rewrite lookup_stamp.
  case_decide; [by intros [= <-]|]. apply Hself.
Qed.

Lemma stamp_complete (l : string) (v : table) (dist : float)
    (dates : list date) (self : instance) :
  complete self ->
  complete
    (set_locations
       (stamp (Some (Assignment l v (Some dist))) dates (locations self))
       self).
Proof.
  intros Hself d x. cbn. rewrite lookup_stamp.
  case_decide; [|apply Hself]. intros [= <-]. by eexists _, _.
Qed.

Section Invariants.
Context `{Math}.

Lemma after_call_consistent (self : instance) (k : call) :
  consistent self -> consistent (after_call self k).
Proof.
  intros Hself. destruct k as [c n l|c n l]; cbn [after_call].
  - destruct (DateCollection.set_location c n l self) as [r self'] eqn:Hcall.
    cbn [snd].
    destruct (base_set_location_outcome c n l self self' _ Hcall)
      as [(? & ? & ?)|[(fm & ? & ? & ? & ?)|[(fm & v & ? & ? & ? & ?)
         |[(fm & ? & ? & ? & ? & ?)|(fm & ? & ? & ? & ? & ?)]]]];
      simplify_eq; try done.
    by apply stamp_consistent.
  - destruct (DateDistanceCollection.set_location c n l self)
      as [r self'] eqn:Hcall.
    cbn [snd].
    destruct (distance_set_location_outcome c n l self self' _ Hcall)
      as [(? & ? & ?)|[(fm & v & dist & ? & ? & ? & ? & ?)
         |[(fm & v & e' & ? & ? & ? & ? & ?)
         |[(fm & ? & ? & ? & ?)|(fm & ? & ? & ? & ?)]]]];
      simplify_eq; try done.
    by apply (stamp_consistent l v (Some dist) _ (called l self)).
Qed.

Lemma after_calls_consistent (self : instance) (ks : list call) :
  consistent self -> consistent (after_calls self ks).
Proof.
  revert self. induction ks as [|k ks IH]; intros self Hself; [done|].
  cbn [after_calls foldl]. fold (after_calls (after_call self k) ks).
  by apply IH, after_call_consistent.
Qed.

Lemma distance_call_complete (self : instance) (c n : Z) (l : string) :
  complete self -> complete (after_call self (DistanceCall c n l)).
Proof.
  intros Hself. cbn [after_call].
  destruct (DateDistanceCollection.set_location c n l self)
    as [r self'] eqn:Hcall.
  cbn [snd].
  destruct (distance_set_location_outcome c n l self self' _ Hcall)
    as [(? & ? & ?)|[(fm & v & dist & ? & ? & ? & ? & ?)
       |[(fm & v & e' & ? & ? & ? & ? & ?)
       |[(fm & ? & ? & ? & ?)|(fm & ? & ? & ? & ?)]]]];
    simplify_eq; try done.
  by apply (stamp_complete l v dist _ (called l self)).
Qed.

Lemma distance_calls_complete (self : instance)
    (args : list (Z * Z * string)) :
  complete self -> complete (after_calls self (distance_calls args)).
Proof.
  revert self. induction args as [|[[c n] l] args IH]; intros self Hself;
    [done|].
  cbn [distance_calls fmap list_fmap after_calls foldl].
  fold (distance_calls args).
  fold (after_calls (after_call self (DistanceCall c n l))
          (distance_calls args)).
  by apply IH, distance_call_complete.
Qed.

End Invariants.

Lemma init_consistent (json : table) (s e : date) (default : option string)
    (self self' : instance) :
  DateCollection.__init__ json s e default self = (Returns tt, self') ->
  consistent self'.
Proof.
  intros Hinit.
  destruct (init_returned json s e default self self' Hinit)
    as (value & -> & Hvalue).
  intros d a. cbn. rewrite lookup_dict_of_dates.
  case_decide; [|done]. intros [= ->].
  destruct Hvalue as [|(l & v & _ & Hr & [= ->])]; done.
Qed.

Lemma distance_init_consistent_complete (json : table) (sy ey : Z)
    (home : string) (self self' : instance) :
  DateDistanceCollection.__init__ json sy ey home self = (Returns tt, self') ->
  consistent self' /\ complete self'.
Proof.
  intros Hinit.
  destruct (distance_init_returned json sy ey home self self' Hinit)
    as (Hsy & Hey & v & Hr).
  destruct (distance_init_returns json sy ey home v self Hsy Hey Hr)
    as (m & Hinit' & Hm).
  rewrite Hinit' in Hinit. injection Hinit as <-. split.
  - intros d a. cbn. rewrite Hm. case_decide; [|done]. by intros [= <-].
  - intros d x. cbn. rewrite Hm. case_decide; [|done]. intros [= <-].
    by eexists _, _.
Qed.

(** X12.  In every calendar that a constructor has returned, and after
    any calls of [set_location] on it, however each call ends, every date
    that is set holds the coordinates that the reference table gives for
    its city. *)
Theorem coordinates_match_city `{Math} (json : table) (self : instance) :
  (forall s e default self' args,
     DateCollection.__init__ json s e default self = (Returns tt, self') ->
     consistent (after_calls self' (location_calls args)))
  /\ (forall sy ey home self' ks,
        DateDistanceCollection.__init__ json sy ey home self
        = (Returns tt, self') ->
        consistent (after_calls self' ks)).
Proof.
  split.
  - intros s e default self' args Hinit.
    by apply after_calls_consistent, (init_consistent json s e default self).
  - intros sy ey home self' ks Hinit.
    apply after_calls_consistent.
    by apply (distance_init_consistent_complete json sy ey home self).
Qed.

(** Two nights in Denver and one night in a place that the table does not
    have, on the calendar of three days; the year 2024 with a stay in
    Denver set by each class. *)
Lemma coordinates_match_city_witness :
  consistent
    (@after_calls small_angle_math example_calendar
       (location_calls [(738954, 2, "US/Denver"%string);
                        (738955, 1, "US/Boston"%string)]))
  /\ consistent
       (@after_calls small_angle_math example_distance_calendar
          [DistanceCall 738955 3 "US/Denver";
           LocationCall 738960 2 "US/Denver"]).
Proof.
  pose proof (@coordinates_match_city small_angle_math example_table blank)
    as [Hbase Hdistance].
  split.
  - apply (Hbase 738953 738955 None). by vm_compute.
  - apply (Hdistance 2024 2024 "US/Chicago"%string). by vm_compute.
Defined.

(** X13.  In a [DateDistanceCollection] that its constructor has
    returned, and after any calls of its [set_location], however each call
    ends, every date holds a place with a distance: no entry is [None] and
    no entry lacks ['distance']. *)
Theorem every_day_has_distance `{Math} (json : table) (sy ey : Z)
    (home : string) (self self' : instance)
    (args : list (Z * Z * string)) :
  DateDistanceCollection.__init__ json sy ey home self = (Returns tt, self') ->
  forall d x,
    locations (after_calls self' (distance_calls args)) !! d = Some x ->
    exists a f, x = Some a /\ distance a = Some f.
Proof.
  intros Hinit.
  apply distance_calls_complete.
  by apply (distance_init_consistent_complete json sy ey home self).
Qed.

(** The year 2024 at home in Chicago, then three nights in Denver and a
    stay in a place that the table does not have: 2024-03-10. *)
Lemma every_day_has_distance_witness :
  exists a f,
    locations
      (@after_calls small_angle_math example_distance_calendar
         (distance_calls [(738955, 3, "US/Denver"%string);
                          (738960, 2, "US/Boston"%string)])) !! 738955
    = Some (Some a)
    /\ distance a = Some f.
Proof.
  destruct (@every_day_has_distance small_angle_math example_table 2024 2024
              "US/Chicago" blank example_distance_calendar
              [(738955, 3, "US/Denver"%string);
               (738960, 2, "US/Boston"%string)]
              ltac:(by vm_compute) 738955
              (Some (Assignment "US/Denver" (Coordinates 39.7 (-105.0))
                       (Some (example_distance_to "US/Denver")))))
    as (a & f & Ha & Hf); [by vm_compute|].
  exists a, f. split; [|exact Hf].
  rewrite <- Ha. by vm_compute.
Defined.

(** ** The size of a calendar *)

Lemma size_range (m : gmap Z (option assignment)) (s e : Z) :
  (forall d, d ∈ dom m <-> s <= d <= e) ->
  size m = Z.to_nat (e - s + 1).
Proof.
  intros Hdom. rewrite <- size_dom.
  assert (dom m = list_to_set (rrule_daily s e)) as ->.
  { apply set_eq. intros d.
    by rewrite Hdom, elem_of_list_to_set, elem_of_rrule_daily. }
  rewrite size_list_to_set by apply NoDup_seqZ.
  apply length_seqZ.
Qed.

Lemma days_of_year (year : Z) :
  _days_before_year (year + 1) - _days_before_year year
  = if _is_leap year then 366 else 365.
Proof.
  unfold _days_before_year, _is_leap.
  replace (year + 1 - 1) with year by lia.
  destruct (Z.eqb_spec (year mod 4) 0) as [H4|H4];
    destruct (Z.eqb_spec (year mod 100) 0) as [H100|H100];
    destruct (Z.eqb_spec (year mod 400) 0) as [H400|H400];
    cbn [negb orb andb]; Z.div_mod_to_equations; lia.
Qed.

Lemma days_before_year_mono (y1 y2 : Z) :
  y1 <= y2 -> _days_before_year y1 <= _days_before_year y2.
Proof.
  intros Hle. unfold _days_before_year.
  Z.div_mod_to_equations. lia.
Qed.

Lemma years_range (sy ey : Z) :
  _ymd2ord ey 12 31 - _ymd2ord sy 1 1 + 1
  = _days_before_year (ey + 1) - _days_before_year sy.
Proof.
  destruct (december_31_january_1 sy) as [Hs _].
  destruct (december_31_january_1 ey) as [_ He].
  destruct (december_31_january_1 (ey + 1)) as [He' _].
  lia.
Qed.

Lemma distance_init_keys (json : table) (sy ey : Z) (home : string)
    (self self' : instance) (d : Z) :
  DateDistanceCollection.__init__ json sy ey home self = (Returns tt, self') ->
  d ∈ dom (locations self') <-> _ymd2ord sy 1 1 <= d <= _ymd2ord ey 12 31.
Proof.
  intros Hinit.
  destruct (distance_init_returned json sy ey home self self' Hinit)
    as (Hsy & Hey & v & Hr).
  destruct (distance_init_returns json sy ey home v self Hsy Hey Hr)
    as (m & Hinit' & Hm).
  rewrite Hinit' in Hinit. injection Hinit as <-. cbn.
  rewrite elem_of_dom, Hm.
  case_decide; split; intros Hx; try done;
    first [by eexists | by destruct Hx].
Qed.

(** X14.  The number of entries of a calendar is fixed by the arguments
    of its constructor, whatever calls of [set_location] follow:
    [end_date - start_date + 1] days for a [DateCollection] (none when
    [end_date] is before [start_date]), and for a
    [DateDistanceCollection] the days of the years [start_year] to
    [end_year], which for a single year is 366 in a leap year and 365
    otherwise. *)
Theorem calendar_size `{Math} (json : table) (self : instance) :
  (forall s e default self' args,
     DateCollection.__init__ json s e default self = (Returns tt, self') ->
     size (locations (after_calls self' (location_calls args)))
     = Z.to_nat (e - s + 1))
  /\ (forall sy ey home self' ks,
        DateDistanceCollection.__init__ json sy ey home self
        = (Returns tt, self') ->
        size (locations (after_calls self' ks))
        = Z.to_nat (_days_before_year (ey + 1) - _days_before_year sy)
        /\ (sy = ey ->
            size (locations (after_calls self' ks))
            = if _is_leap sy then 366%nat else 365%nat)).
Proof.
  split.
  - intros s e default self' args Hinit.
    apply size_range. intros d. rewrite after_calls_dom.
    by apply (init_keys json s e default self).
  - intros sy ey home self' ks Hinit.
    assert (size (locations (after_calls self' ks))
            = Z.to_nat (_days_before_year (ey + 1) - _days_before_year sy))
      as Hsize.
    { rewrite <- years_range. apply size_range. intros d.
      rewrite after_calls_dom.
      by apply (distance_init_keys json sy ey home self). }
    split; [done|]. intros <-. rewrite Hsize, days_of_year.
    by destruct (_is_leap sy).
Qed.

(** The year 2024 has 366 days, before and after a stay. *)
Lemma calendar_size_witness :
  size
    (locations
       (@after_calls small_angle_math example_distance_calendar
          [DistanceCall 738955 3 "US/Denver"]))
  = 366%nat.
Proof.
  pose proof (@calendar_size small_angle_math example_table blank)
    as [_ Hdistance].
  destruct (Hdistance 2024 2024 "US/Chicago"%string
              example_distance_calendar
              [DistanceCall 738955 3 "US/Denver"]) as [_ Hyear];
    [by vm_compute|].
  exact (Hyear eq_refl).
Defined.

(** ** Years *)

(** X15.  The constructor of [DateDistanceCollection] with a year that
    [date] refuses raises before anything else is done: [OverflowError]
    for a year that does not fit a C [int], [ValueError] for one that does
    and is outside 1..9999, [start_year] being looked at first.  The
    instance is as it was: the reference file is not opened, nothing is
    printed and no attribute is set. *)
Theorem invalid_year_raises (json : table) (sy ey : Z) (home : string)
    (e : exn) (self : instance) :
  year_error sy = Some e
  \/ (year_error sy = None /\ year_error ey = Some e) ->
  (e = OverflowError \/ e = ValueError)
  /\ DateDistanceCollection.__init__ json sy ey home self
     = (Raises e, self).
Proof.
  intros Hyears. split; [|by apply distance_init_year_error].
  assert (forall y, year_error y = Some e ->
                    e = OverflowError \/ e = ValueError) as Hcases.
  { intros y. unfold year_error.
    repeat case_match; intros [= <-]; first [by left | by right]. }
  destruct Hyears as [Hsy|[_ Hey]]; by eapply Hcases.
Qed.

(** The year 0, the year 2^31 as [end_year], and both at once. *)
Lemma invalid_year_raises_witness :
  DateDistanceCollection.__init__ example_table 0 2024 "US/Chicago" blank
  = (Raises ValueError, blank)
  /\ DateDistanceCollection.__init__ example_table 2024 2147483648
       "US/Chicago" blank
     = (Raises OverflowError, blank)
  /\ DateDistanceCollection.__init__ example_table 0 2147483648
       "US/Chicago" blank
     = (Raises ValueError, blank).
Proof.
  split; [|split].
  - apply (invalid_year_raises example_table 0 2024 "US/Chicago"
             ValueError blank).
    by left.
  - apply (invalid_year_raises example_table 2024 2147483648 "US/Chicago"
             OverflowError blank).
    by right.
  - apply (invalid_year_raises example_table 0 2147483648 "US/Chicago"
             ValueError blank).
    by left.
Defined.

(** X16.  With [end_year] before [start_year], both years that [date]
    accepts and a home that resolves, the constructor of
    [DateDistanceCollection] returns a calendar without any date, with
    the coordinates of the home set and nothing printed. *)
Theorem reversed_years_empty (json : table) (sy ey : Z) (home : string)
    (v : table) (self : instance) :
  1 <= ey -> ey < sy -> sy <= 9999 ->
  resolve json home = Returns v ->
  DateDistanceCollection.__init__ json sy ey home self
  = (Returns tt, Instance json ∅ v (stdout self) (home_distance_calls self)).
Proof.
  intros Hey Hlt Hsy Hr.
  destruct (distance_init_returns json sy ey home v self) as (m & -> & Hm);
    [lia | lia | done |].
  assert (m = ∅) as ->; [|done].
  apply map_eq. intros d. rewrite Hm, lookup_empty.
  case_decide as Hd; [|done]. exfalso.
  pose proof (years_range sy ey) as Hrange.
  pose proof (days_before_year_mono (ey + 1) sy). lia.
Qed.

Lemma reversed_years_empty_witness :
  DateDistanceCollection.__init__ example_table 2025 2024 "US/Chicago" blank
  = (Returns tt,
     Instance example_table ∅ (Coordinates 41.9 (-87.6)) [] []).
Proof.
  apply (reversed_years_empty example_table 2025 2024 "US/Chicago"
           (Coordinates 41.9 (-87.6)) blank); [lia | lia | lia |].
  reflexivity.
Defined.

(** ** The first morning *)

(** X17.  When the number of days before [checkout_date] is more than
    [timedelta] takes, or the first morning is not a date, [set_location]
    raises [OverflowError] on either class before it looks the place up:
    the instance is as it was, also for a place that the table does not
    have.  In every other case [set_location] of [DateCollection] does
    not raise [OverflowError]. *)
Theorem overflow_error_condition `{Math} (c n : Z) (l : string)
    (self : instance) :
  (~ representable c n ->
   DateCollection.set_location c n l self = (Raises OverflowError, self)
   /\ DateDistanceCollection.set_location c n l self
      = (Raises OverflowError, self))
  /\ (representable c n ->
      (DateCollection.set_location c n l self).1 <> Raises OverflowError).
Proof.
  unfold representable, _MAXORDINAL. split.
  - intros Hout.
    assert (first_morning c n = Raises OverflowError) as Hfm.
    { unfold first_morning, timedelta, date_sub, date_in_range, _MAXORDINAL.
      destruct ((-999999999 <=? n - 1) && (n - 1 <=? 999999999)) eqn:Hn;
        [|done].
      destruct ((1 <=? c - (n - 1)) && (c - (n - 1) <=? 3652059)) eqn:Hfm;
        [|done].
      apply andb_true_iff in Hn as [? ?], Hfm as [? ?]. lia. }
    unfold DateCollection.set_location, DateDistanceCollection.set_location.
    by rewrite !bind_lift, Hfm.
  - intros [Hn Hfm].
    assert (first_morning c n = Returns (c - (n - 1))) as Hfm'.
    { unfold first_morning, timedelta, date_sub, date_in_range, _MAXORDINAL.
      replace ((-999999999 <=? n - 1) && (n - 1 <=? 999999999)) with true
        by (symmetry; apply andb_true_iff; lia).
      by replace ((1 <=? c - (n - 1)) && (c - (n - 1) <=? 3652059))
        with true by (symmetry; apply andb_true_iff; lia). }
    destruct (DateCollection.set_location c n l self) as [r self'] eqn:Hcall.
    cbn [fst].
    destruct (base_set_location_outcome c n l self self' _ Hcall)
      as [(? & ? & ?)|[(fm & ? & ? & ? & ?)|[(fm & v & ? & ? & ? & ?)
         |[(fm & ? & ? & ? & ? & ?)|(fm & ? & ? & ? & ? & ?)]]]];
      simplify_eq; try done; congruence.
Qed.

(** A stay of minus three million nights from 2024-03-10, and a stay of
    three nights, in a place that the table does not have. *)
Lemma overflow_error_condition_witness :
  (DateCollection.set_location 738955 (-3000000) "US/Boston"
     example_calendar
   = (Raises OverflowError, example_calendar)
   /\ @DateDistanceCollection.set_location small_angle_math 738955
        (-3000000) "US/Boston" example_calendar
      = (Raises OverflowError, example_calendar))
  /\ (DateCollection.set_location 738955 3 "US/Boston" example_calendar).1
     <> Raises OverflowError.
Proof.
  pose proof (@overflow_error_condition small_angle_math 738955 (-3000000)
                "US/Boston" example_calendar) as [Hout _].
  pose proof (@overflow_error_condition small_angle_math 738955 3
                "US/Boston" example_calendar) as [_ Hin].
  split.
  - apply Hout. unfold representable, _MAXORDINAL. lia.
  - apply Hin. unfold representable, _MAXORDINAL. lia.
Defined.
